(** * Futures NQ data fetcher: retrieval, normalisation and export

    A shallow embedding of [futures_nq/data_fetcher.py], [futures_nq/main.py]
    and [futures_nq/config.py].

    The Python code is glue over three external collaborators: the Databento
    historical client, pandas and the operating system.  They are embedded as
    follows.

    - Exceptions are values [exn]; a computation is a function from the
      [world] (log records, printed lines, file system) to an [outcome]
      and a new world.  [try ... except Exception as e: ...; raise] is
      [try_except_Exception].
    - The vendor client is the interface [Databento]: each call either
      returns or raises an arbitrary exception.
    - A [DataFrame] has a named index and a list of labelled columns (labels
      may repeat, as in pandas).  The pandas operations the code calls
      ([set_index], [df[keys]], [reset_index], [rename], [to_csv]) are
      functions on it; cell formatting and [pd.to_datetime] are the interface
      [Pandas].
    - The chart and the tables of the web page are the interface
      [Streamlit]: each display step either returns or raises.
    - The file system is a finite map from resolved paths to nodes, with
      POSIX path resolution (no symbolic links, no permissions). *)

From Stdlib Require Import ZArith Ascii String List Lia Bool.
From stdpp Require Import base option list strings pretty gmap.

Local Open Scope string_scope.
Local Open Scope list_scope.

(** ** Exceptions and outcomes *)

(** The values that occur as exception arguments. *)
Inductive pyval : Type :=
| PyStr (s : string)
| PyInt (z : Z).

(** A Python exception: its class name, the arguments it was made with
    (for an [OSError] the error number, the message and the file name),
    whether it is an instance of [Exception] (as opposed to a bare
    [BaseException] such as [KeyboardInterrupt]), and its [__cause__]. *)
#[warnings="-register-all"]
Inductive exn : Type :=
  Exn { exc_class : string;
        exc_args : list pyval;
        exc_is_Exception : bool;
        exc_cause : option exn }.

Inductive outcome (A : Type) : Type :=
| Ok (a : A)
| Raise (e : exn).
Arguments Ok {A} a.
Arguments Raise {A} e.

Definition is_Ok {A} (o : outcome A) : bool :=
  match o with Ok _ => true | Raise _ => false end.

(** [wraps cls e cause]: [e] is an instance of class [cls] raised from
    [cause] (Python's [raise cls(...) from cause]). *)
Definition wraps (cls : string) (e cause : exn) : Prop :=
  exc_class e = cls /\ exc_cause e = Some cause.

(** The [KeyError] of pandas for labels that name no column.  pandas puts
    the labels in a message whose wording differs between its versions; the
    labels themselves are kept as the arguments. *)
Definition KeyError (missing : list string) : exn :=
  Exn "KeyError" (PyStr <$> missing) true None.
Definition ValueError (args : list string) : exn :=
  Exn "ValueError" (PyStr <$> args) true None.
Definition IndexError (msg : string) : exn :=
  Exn "IndexError" [PyStr msg] true None.
Definition FileNotFoundError (path : string) : exn :=
  Exn "FileNotFoundError" [PyInt 2; PyStr "No such file or directory"; PyStr path] true None.
Definition NotADirectoryError (path : string) : exn :=
  Exn "NotADirectoryError" [PyInt 20; PyStr "Not a directory"; PyStr path] true None.
Definition IsADirectoryError (path : string) : exn :=
  Exn "IsADirectoryError" [PyInt 21; PyStr "Is a directory"; PyStr path] true None.
Definition FileExistsError (path : string) : exn :=
  Exn "FileExistsError" [PyInt 17; PyStr "File exists"; PyStr path] true None.
Definition SystemExit (code : Z) : exn :=
  Exn "SystemExit" [PyInt code] false None.

(** ** Strings and POSIX paths *)

Definition slash : ascii := "/"%char.

Definition ascii_eqb (a b : ascii) : bool := bool_decide (a = b).
Definition string_eqb (a b : string) : bool := bool_decide (a = b).

Fixpoint mem_char (c : ascii) (s : string) : bool :=
  match s with
  | EmptyString => false
  | String d r => ascii_eqb c d || mem_char c r
  end.

Fixpoint is_prefix (p s : string) : bool :=
  match p, s with
  | EmptyString, _ => true
  | String a p', String b s' => ascii_eqb a b && is_prefix p' s'
  | String _ _, EmptyString => false
  end.


(** [s.split(sep)] for a one-character separator. *)
Fixpoint split_on (sep : ascii) (s : string) : list string :=
  match s with
  | EmptyString => [EmptyString]
  | String c r =>
      if ascii_eqb c sep then EmptyString :: split_on sep r
      else match split_on sep r with
           | [] => [String c EmptyString]
           | w :: ws => String c w :: ws
           end
  end.

(** [p[:p.rfind('/') + 1]], or [None] when [p] has no slash. *)
Fixpoint upto_last_slash (p : string) : option string :=
  match p with
  | EmptyString => None
  | String c r =>
      match upto_last_slash r with
      | Some h => Some (String c h)
      | None => if ascii_eqb c slash then Some (String c EmptyString) else None
      end
  end.

Fixpoint all_slashes (s : string) : bool :=
  match s with
  | EmptyString => true
  | String c r => ascii_eqb c slash && all_slashes r
  end.

(** [s.rstrip('/')]. *)
Fixpoint rstrip_slash (s : string) : string :=
  match s with
  | EmptyString => EmptyString
  | String c r =>
      let r' := rstrip_slash r in
      if ascii_eqb c slash && string_eqb r' EmptyString then EmptyString
      else String c r'
  end.

(** [posixpath.dirname]:
    [i = p.rfind('/') + 1; head = p[:i];
     if head and head != '/' * len(head): head = head.rstrip('/')]. *)
Definition dirname (p : string) : string :=
  let head := default EmptyString (upto_last_slash p) in
  if negb (string_eqb head EmptyString) && negb (all_slashes head)
  then rstrip_slash head
  else head.

(** ** The file system *)

Inductive node : Type :=
| Dir
| File (content : string).

(** Keys are resolved paths: the component names from the root. *)
Record filesystem : Type := {
  cwd : list string;
  nodes : gmap (list string) node
}.

(** The root always exists and is a directory. *)
Definition node_at (ns : gmap (list string) node) (k : list string) : option node :=
  match k with
  | [] => Some Dir
  | _ => ns !! k
  end.

Definition is_abs (p : string) : bool := is_prefix "/" p.

Definition start_dir (fs : filesystem) (p : string) : list string :=
  if is_abs p then [] else cwd fs.

Definition skip_component (c : string) : bool :=
  string_eqb c "" || string_eqb c ".".

(** Resolve the directory components [comps] from [cur]; each name must be
    an existing directory. [path] is only used in the error raised. *)
Fixpoint walk_dirs (ns : gmap (list string) node) (path : string)
         (cur : list string) (comps : list string) : outcome (list string) :=
  match comps with
  | [] => Ok cur
  | c :: cs =>
      if skip_component c then walk_dirs ns path cur cs
      else if string_eqb c ".." then walk_dirs ns path (removelast cur) cs
      else
        let k := cur ++ [c] in
        match node_at ns k with
        | Some Dir => walk_dirs ns path k cs
        | Some (File _) => Raise (NotADirectoryError path)
        | None => Raise (FileNotFoundError path)
        end
  end.

(** ['/'.join(comps)]. *)
Definition join_path (comps : list string) : string := String.concat "/" comps.

(** A component other than the empty one (which a doubled or trailing
    slash leaves) follows. *)
Definition has_name (comps : list string) : bool :=
  existsb (fun c => negb (string_eqb c "")) comps.

(** The components up to the next name, and all of them when that name is
    the last one. *)
Fixpoint through_next_name (comps : list string) : list string :=
  match comps with
  | [] => []
  | c :: cs =>
      if string_eqb c "" then c :: through_next_name cs
      else if has_name cs then [c] else c :: cs
  end.

(** The directory-creating walk of [os.makedirs(name, exist_ok=True)]:
    every missing component is created, an existing directory is entered,
    a file in the way is an error.  [seen] holds the components already
    passed.  The error is the one of the [mkdir] call that meets the file:
    [mkdir] of the file's own path, when no name follows it, finds that it
    exists; otherwise [mkdir] of the path through the next name finds that
    the file is no directory.  The directories made before an error stay. *)
Fixpoint make_dirs (ns : gmap (list string) node) (seen : list string)
         (cur : list string) (comps : list string)
  : outcome unit * gmap (list string) node :=
  match comps with
  | [] => (Ok tt, ns)
  | c :: cs =>
      if skip_component c then make_dirs ns (seen ++ [c]) cur cs
      else if string_eqb c ".." then make_dirs ns (seen ++ [c]) (removelast cur) cs
      else
        let k := cur ++ [c] in
        match node_at ns k with
        | Some Dir => make_dirs ns (seen ++ [c]) k cs
        | Some (File _) =>
            if has_name cs
            then (Raise (NotADirectoryError
                           (join_path (seen ++ c :: through_next_name cs))), ns)
            else (Raise (FileExistsError (join_path (seen ++ c :: cs))), ns)
        | None => make_dirs (<[k := Dir]> ns) (seen ++ [c]) k cs
        end
  end.

(** [os.makedirs(name, exist_ok=True)]: the outcome and the file system it
    leaves.  On the empty name [mkdir('')] fails with ENOENT and
    [os.path.isdir('')] is false, so the error is raised. *)
Definition os_makedirs_exist_ok (name : string) (fs : filesystem)
  : outcome unit * filesystem :=
  if string_eqb name "" then (Raise (FileNotFoundError ""), fs)
  else
    let (o, ns) := make_dirs (nodes fs) [] (start_dir fs name) (split_on slash name) in
    (o, {| cwd := cwd fs; nodes := ns |}).

(** The resolved key of the file named by [path], for reading or writing. *)
Definition resolve_file (fs : filesystem) (path : string) : outcome (list string) :=
  if string_eqb path "" then Raise (FileNotFoundError path)
  else
    let comps := split_on slash path in
    match walk_dirs (nodes fs) path (start_dir fs path) (removelast comps) with
    | Raise e => Raise e
    | Ok cur =>
        let name := List.last comps "" in
        if skip_component name || string_eqb name ".."
        then Raise (IsADirectoryError path)
        else Ok (cur ++ [name])
    end.

(** [open(path, 'w').write(text)]: creates or truncates the file; a failed
    [open] changes nothing. *)
Definition write_text (path text : string) (fs : filesystem)
  : outcome unit * filesystem :=
  match resolve_file fs path with
  | Raise e => (Raise e, fs)
  | Ok k =>
      match node_at (nodes fs) k with
      | Some Dir => (Raise (IsADirectoryError path), fs)
      | _ => (Ok tt, {| cwd := cwd fs; nodes := <[k := File text]> (nodes fs) |})
      end
  end.

(** [open(path).read()]. *)
Definition read_text (path : string) (fs : filesystem) : outcome string :=
  match resolve_file fs path with
  | Raise e => Raise e
  | Ok k =>
      match node_at (nodes fs) k with
      | Some (File text) => Ok text
      | Some Dir => Raise (IsADirectoryError path)
      | None => Raise (FileNotFoundError path)
      end
  end.

Definition isdir (path : string) (fs : filesystem) : bool :=
  if string_eqb path "" then false
  else match walk_dirs (nodes fs) path (start_dir fs path) (split_on slash path) with
       | Ok _ => true
       | Raise _ => false
       end.

(** ** The world and the computation monad *)

Inductive level : Type := INFO | ERROR.

(** The records of the [futures_nq] logger, what [print] wrote, and the
    file system.  The logger's handler writes its formatted records to
    standard output as well; they are kept apart from the printed lines. *)
Record world : Type := {
  w_log : list (level * string);
  w_stdout : list string;
  w_fs : filesystem
}.

Definition M (A : Type) : Type := world -> outcome A * world.

#[global] Instance M_ret : MRet M := fun A a w => (Ok a, w).
#[global] Instance M_bind : MBind M := fun A B k m w =>
  match m w with
  | (Ok a, w') => k a w'
  | (Raise e, w') => (Raise e, w')
  end.

Definition raise {A} (e : exn) : M A := fun w => (Raise e, w).

Definition lift {A} (o : outcome A) : M A := fun w => (o, w).

(** [try: body except Exception as e: handler(e)]: only instances of
    [Exception] are caught. *)
Definition try_except_Exception {A} (body : M A) (handler : exn -> M A) : M A :=
  fun w =>
    match body w with
    | (Ok a, w') => (Ok a, w')
    | (Raise e, w') =>
        if exc_is_Exception e then handler e w' else (Raise e, w')
    end.

Definition log_record (l : level) (msg : string) : M unit := fun w =>
  (Ok tt, {| w_log := w_log w ++ [(l, msg)];
             w_stdout := w_stdout w;
             w_fs := w_fs w |}).

Definition logger_info : string -> M unit := log_record INFO.
Definition logger_error : string -> M unit := log_record ERROR.

Definition print (line : string) : M unit := fun w =>
  (Ok tt, {| w_log := w_log w;
             w_stdout := w_stdout w ++ [line];
             w_fs := w_fs w |}).

(** The world [w] with the file system [fs]. *)
Definition with_files (fs : filesystem) (w : world) : world :=
  {| w_log := w_log w; w_stdout := w_stdout w; w_fs := fs |}.

(** A file-system operation run on the world's file system. *)
Definition with_fs (op : filesystem -> outcome unit * filesystem) : M unit := fun w =>
  let (o, fs') := op (w_fs w) in (o, with_files fs' w).

(** [sys.exit(code)]. *)
Definition sys_exit {A} (code : Z) : M A := raise (SystemExit code).

(** The exit status of the interpreter when the main module ends with
    outcome [o]: 0 on a normal end, the code of a [SystemExit], the status
    of a process ended by the interrupt signal (128 + 2) on an uncaught
    [KeyboardInterrupt], 1 on any other uncaught exception. *)
Definition exit_status {A} (o : outcome A) : Z :=
  match o with
  | Ok _ => 0
  | Raise e =>
      if string_eqb (exc_class e) "SystemExit" then
        match exc_args e with
        | [] => 0
        | [PyInt code] => code
        | _ => 1
        end
      else if string_eqb (exc_class e) "KeyboardInterrupt" then 130
      else 1
  end.

(** ** Dates and times *)

Record date : Type := { year : nat; month : nat; day : nat }.

(** [utcoffset] is the offset of an aware datetime in minutes; [None] for a
    naive one. *)
Record datetime : Type := {
  dt_date : date;
  hour : nat; minute : nat; second : nat; microsecond : nat;
  utcoffset : option Z
}.

Fixpoint zeros (n : nat) : string :=
  match n with O => "" | S n' => "0" +:+ zeros n' end.

(** [f"{n:0{width}d}"]. *)
Definition zero_pad (width n : nat) : string :=
  let s := pretty n in
  zeros (width - String.length s) +:+ s.

(** [str(d)], which is [d.isoformat()]. *)
Definition str_date (d : date) : string :=
  zero_pad 4 (year d) +:+ "-" +:+ zero_pad 2 (month d) +:+ "-" +:+ zero_pad 2 (day d).

Definition str_offset (o : option Z) : string :=
  match o with
  | None => ""
  | Some m =>
      let a := Z.to_nat (Z.abs m) in
      (if (m <? 0)%Z then "-" else "+") +:+
      zero_pad 2 (a / 60) +:+ ":" +:+ zero_pad 2 (a mod 60)
  end.

Definition isoformat_sep (sep : string) (t : datetime) : string :=
  str_date (dt_date t) +:+ sep +:+
  zero_pad 2 (hour t) +:+ ":" +:+ zero_pad 2 (minute t) +:+ ":" +:+
  zero_pad 2 (second t) +:+
  (if Nat.eqb (microsecond t) 0 then "" else "." +:+ zero_pad 6 (microsecond t)) +:+
  str_offset (utcoffset t).

(** [t.isoformat()] and [str(t)]. *)
Definition isoformat : datetime -> string := isoformat_sep "T".
Definition str_datetime : datetime -> string := isoformat_sep " ".

(** [datetime(y, m, d, tzinfo=timezone.utc)]. *)
Definition datetime_utc (y m d : nat) : datetime :=
  {| dt_date := {| year := y; month := m; day := d |};
     hour := 0; minute := 0; second := 0; microsecond := 0;
     utcoffset := Some 0%Z |}.

(** [datetime.combine(d, datetime.min.time(), tzinfo=timezone.utc)]. *)
Definition combine_min_utc (d : date) : datetime :=
  {| dt_date := d;
     hour := 0; minute := 0; second := 0; microsecond := 0;
     utcoffset := Some 0%Z |}.

(** ** Configuration ([config.py]) *)

Definition API_KEY : string := "db-gTHu98jipf8fqeHuVjsDxhdSGM9YR".
Definition DATASET : string := "GLBX.MDP3".
Definition SCHEMA : string := "ohlcv-1m".
Definition SCHEMA_STATS : string := "definition".
Definition SCHEMA_TRADES : string := "trades".
Definition SCHEMA_MBP : string := "mbp-10".
Definition SYMBOL : string := "NQM5".
Definition SYMBOL_DESCRIPTION : string := "E-mini NASDAQ-100 Futures (June 2025)".
Definition DEFAULT_START_TIME : datetime := datetime_utc 2025 3 21.
Definition DEFAULT_END_TIME : datetime := datetime_utc 2025 3 22.
Definition OUTPUT_DIR : string := "data".
Definition OUTPUT_FILE : string := OUTPUT_DIR +:+ "/nq_futures_data.csv".

(** ** CSV rows, as written by Python's [csv.writer] (minimal quoting,
       line terminator LF, as pandas sets it on POSIX) *)

Definition dquote : ascii := "034"%char.
Definition LF : ascii := "010"%char.
Definition CR : ascii := "013"%char.
Definition comma : ascii := ","%char.

(** A field is quoted when it holds the delimiter, the quote character
    or a character of the line terminator.  A carriage return is none of
    these: it is written as it is. *)
Definition needs_quote (s : string) : bool :=
  mem_char comma s || mem_char dquote s || mem_char LF s.

Fixpoint double_quotes (s : string) : string :=
  match s with
  | EmptyString => EmptyString
  | String c r =>
      if ascii_eqb c dquote then String c (String c (double_quotes r))
      else String c (double_quotes r)
  end.

Definition csv_field (s : string) : string :=
  if needs_quote s
  then String dquote (double_quotes s +:+ String dquote EmptyString)
  else s.

Fixpoint join_fields (fs : list string) : string :=
  match fs with
  | [] => ""
  | [f] => csv_field f
  | f :: rest => csv_field f +:+ "," +:+ join_fields rest
  end.

(** One record; a record made of a single empty field is written quoted. *)
Definition csv_row (fs : list string) : string :=
  (match fs with
   | [EmptyString] => String dquote (String dquote EmptyString)
   | _ => join_fields fs
   end) +:+ String LF EmptyString.

Definition csv_text (rows : list (list string)) : string :=
  foldr (fun r acc => csv_row r +:+ acc) "" rows.

(** ** Reading a CSV record back, as Python's [csv.reader] does *)

Inductive reader_state : Type :=
| FieldStart
| InUnquoted
| InQuoted
| QuoteInQuoted.

(** Put a character in front of the field being read. *)
Definition push (c : ascii) (fields : list string) : list string :=
  match fields with
  | [] => [String c EmptyString]
  | f :: rest => String c f :: rest
  end.

(** The fields of the first record of [s], read from state [st], for a
    text whose lines the reader gets as the [csv] module asks (opened with
    [newline='']).  Outside quotes a line feed or a carriage return ends
    the record. *)
Fixpoint read_record (st : reader_state) (s : string) : list string :=
  match s with
  | EmptyString => [EmptyString]
  | String c r =>
      let after_field :=
        if ascii_eqb c comma then EmptyString :: read_record FieldStart r
        else if ascii_eqb c LF || ascii_eqb c CR then [EmptyString]
        else push c (read_record InUnquoted r) in
      match st with
      | FieldStart =>
          if ascii_eqb c dquote then read_record InQuoted r else after_field
      | InUnquoted => after_field
      | InQuoted =>
          if ascii_eqb c dquote then read_record QuoteInQuoted r
          else push c (read_record InQuoted r)
      | QuoteInQuoted =>
          if ascii_eqb c dquote then push c (read_record InQuoted r) else after_field
      end
  end.

(** The header of a CSV text: the fields of its first record; an empty
    text or an empty first line has none. *)
Definition csv_header (text : string) : list string :=
  match text with
  | EmptyString => []
  | String c _ =>
      if ascii_eqb c LF || ascii_eqb c CR then [] else read_record FieldStart text
  end.

(** A field that the reader gives back as it was written: one that is
    written quoted, or one that holds no carriage return. *)
Definition reads_back (f : string) : bool :=
  needs_quote f || negb (mem_char CR f).

(** [t] starts with a field or record separator. *)
Definition at_separator (t : string) : Prop :=
  exists c r, t = String c r /\ (c = comma \/ c = LF).

(** Put a string in front of the field being read. *)
Definition prepend (s : string) (fields : list string) : list string :=
  match fields with
  | [] => [s]
  | f :: rest => (s +:+ f) :: rest
  end.

(** ** Data frames *)

Section Frames.
(** The type of cell values. *)
Context {V : Type}.

(** A pandas [DataFrame] with a single-level index: the index name, the
    index values (one per row) and the labelled columns in order. *)
Record DataFrame : Type := {
  index_name : option string;
  index : list V;
  columns : list (string * list V)
}.

(** [list(df.columns)]. *)
Definition labels (df : DataFrame) : list string := (columns df).*1.

(** [len(df)]. *)
Definition len (df : DataFrame) : nat := length (index df).

Definition has_label (l : string) (c : string * list V) : bool :=
  string_eqb c.1 l.

(** [label in df.columns]. *)
Definition in_columns (l : string) (df : DataFrame) : bool :=
  existsb (has_label l) (columns df).

(** The interface of pandas that depends on the cell values. *)
Class Pandas : Type := {
  (** [pd.to_datetime(values)] on the values of an index. *)
  pd_to_datetime : list V -> outcome (list V);
  (** the text [to_csv] writes for a cell *)
  csv_repr : V -> string;
  (** the cell holding the integer [i] of a [RangeIndex] *)
  range_cell : nat -> V;
  (** the cell holding the tuple of the values [vs] *)
  tuple_cell : list V -> V
}.

Context `{Pandas}.

(** The values of row [i] in the columns [cols]. *)
Definition row_values (cols : list (string * list V)) (i : nat) : list V :=
  omap (fun c => c.2 !! i) cols.

(** One tuple per row, of the row's values in the columns [cols]. *)
Definition tuple_index (cols : list (string * list V)) (rows : nat) : list V :=
  (fun i => tuple_cell (row_values cols i)) <$> seq 0 rows.

(** [df.set_index(label, inplace=True)]: the column becomes the index,
    under its label, and leaves the columns; the previous index is
    discarded.  A label that names no column is a [KeyError].  A label that
    names several columns selects them all: the index then holds, for each
    row, the tuple of the row's values in these columns, and all of them
    leave the columns. *)
Definition set_index (l : string) (df : DataFrame) : outcome DataFrame :=
  match filter (fun c => c.1 = l) (columns df) with
  | [] => Raise (KeyError [l])
  | [c] =>
      Ok {| index_name := Some l;
            index := c.2;
            columns := filter (fun c => c.1 <> l) (columns df) |}
  | cs =>
      Ok {| index_name := Some l;
            index := tuple_index cs (len df);
            columns := filter (fun c => c.1 <> l) (columns df) |}
  end.

(** [df[keys]] for a list of labels: for each key in turn every column
    with that label; a key that names no column is a [KeyError]. *)
Definition getitem_list (keys : list string) (df : DataFrame) : outcome DataFrame :=
  match filter (fun k => negb (in_columns k df)) keys with
  | [] =>
      Ok {| index_name := index_name df;
            index := index df;
            columns :=
              flat_map (fun k => filter (fun c => c.1 = k) (columns df)) keys |}
  | missing => Raise (KeyError missing)
  end.

(** [df.index = values]: the new index must have one value per row. *)
Definition assign_index (values : list V) (df : DataFrame) : outcome DataFrame :=
  if Nat.eqb (length values) (len df)
  then Ok {| index_name := index_name df; index := values; columns := columns df |}
  else Raise (ValueError ["Length mismatch"]).

(** [df.rename(columns={old: new}, inplace=True)]. *)
Definition rename_columns (old new : string) (df : DataFrame) : DataFrame :=
  {| index_name := index_name df;
     index := index df;
     columns := map (fun c => (if string_eqb c.1 old then new else c.1, c.2))
                    (columns df) |}.

(** The name [reset_index] gives the column made from the index. *)
Definition reset_index_label (df : DataFrame) : string :=
  match index_name df with
  | Some n => n
  | None => if in_columns "index" df then "level_0" else "index"
  end.

(** [df.reset_index()]: a new frame with the index inserted as the first
    column and a fresh [RangeIndex]; inserting a label that is already a
    column is a [ValueError]. *)
Definition reset_index (df : DataFrame) : outcome DataFrame :=
  let l := reset_index_label df in
  if in_columns l df
  then Raise (ValueError ["cannot insert " +:+ l +:+ ", already exists"])
  else Ok {| index_name := None;
             index := range_cell <$> seq 0 (len df);
             columns := (l, index df) :: columns df |}.

Definition cell_text (vs : list V) (i : nat) : string :=
  from_option csv_repr "" (vs !! i).

(** The data records of [to_csv(index=False)] and of [to_csv()]. *)
Definition data_rows (df : DataFrame) : list (list string) :=
  map (fun i => map (fun c => cell_text c.2 i) (columns df)) (seq 0 (len df)).

Definition data_rows_with_index (df : DataFrame) : list (list string) :=
  map (fun i => cell_text (index df) i :: map (fun c => cell_text c.2 i) (columns df))
      (seq 0 (len df)).

(** [df.to_csv(index=False)] as text. *)
Definition to_csv_no_index (df : DataFrame) : string :=
  csv_text (labels df :: data_rows df).

(** [df.to_csv()] as text: the index is the first field of every record,
    under its name (empty when it has none). *)
Definition to_csv (df : DataFrame) : string :=
  csv_text ((default "" (index_name df) :: labels df) :: data_rows_with_index df).

(** [df.to_csv(filepath, index=False)]. *)
Definition to_csv_file (df : DataFrame) (filepath : string) : M unit :=
  with_fs (write_text filepath (to_csv_no_index df)).
End Frames.

Arguments DataFrame V : clear implicits.
Arguments Pandas V : clear implicits.

(** ** The vendor client *)

(** The calls made on the Databento client and on what it returns; each may
    raise. *)
Class Databento (V : Type) : Type := {
  Client : Type;
  DBNStore : Type;
  InstrumentDefs : Type;
  (** [Historical(key)] *)
  Historical : string -> outcome Client;
  (** [client.timeseries.get_range(dataset, symbols, schema, start, end)] *)
  timeseries_get_range :
    Client -> string -> list string -> string -> string -> string -> outcome DBNStore;
  (** [data.to_df()] *)
  to_df : DBNStore -> outcome (DataFrame V);
  (** [client.metadata.get_definition(dataset, symbols, start, end)] *)
  metadata_get_definition :
    Client -> string -> list string -> date -> date -> outcome InstrumentDefs;
  (** [pd.DataFrame(data)] *)
  pd_DataFrame : InstrumentDefs -> outcome (DataFrame V)
}.

(** [str(e)]. *)
Class PyStrExn : Type := str_exn : exn -> string.

(** The steps of the web page that display a fetched frame; each may
    raise.  [plot_ohlcv] builds the candlestick and volume chart from the
    frame's [open], [high], [low], [close] and [volume] columns and its
    index; the chart is only handed to [st.plotly_chart]. *)
Class Streamlit (V : Type) : Type := {
  Figure : Type;
  (** [plot_ohlcv(df)] *)
  plot_ohlcv : DataFrame V -> outcome Figure;
  (** [st.plotly_chart(fig, use_container_width=True)] *)
  st_plotly_chart : Figure -> outcome unit;
  (** the table of the minimum, maximum and mean of each column, built
      with [pd.DataFrame], formatted and shown with [st.dataframe] *)
  show_summary : DataFrame V -> outcome unit;
  (** [st.dataframe(df.style.format({...}), ...)] for the raw data *)
  show_raw_data : DataFrame V -> outcome unit
}.

(** ** The retrieval client ([data_fetcher.py]) *)

Section Fetcher.
Context {V : Type} `{!Pandas V} `{!Databento V} `{!PyStrExn} `{!Streamlit V}.

Record NQDataFetcher : Type := { client : Client }.

(** [NQDataFetcher.__init__]. *)
Definition NQDataFetcher_init : M NQDataFetcher :=
  c ← lift (Historical API_KEY);
  _ ← logger_info ("Initialized Databento client for " +:+ DATASET);
  mret {| client := c |}.

Definition keep_cols : list string := ["open"; "high"; "low"; "close"; "volume"].

(** [if 'ts_event' in df.columns: df.set_index('ts_event', inplace=True)]. *)
Definition promote_ts_event (df : DataFrame V) : outcome (DataFrame V) :=
  if in_columns "ts_event" df then set_index "ts_event" df else Ok df.

(** [df.index = pd.to_datetime(df.index)]. *)
Definition parse_index (df : DataFrame V) : outcome (DataFrame V) :=
  match pd_to_datetime (index df) with
  | Ok idx => assign_index idx df
  | Raise e => Raise e
  end.

Definition fetch_data (self : NQDataFetcher) (start_time end_time : datetime)
  : M (DataFrame V) :=
  try_except_Exception
    (_ ← logger_info ("Fetching " +:+ SYMBOL +:+ " OHLCV data from " +:+
                      str_datetime start_time +:+ " to " +:+ str_datetime end_time);
     let start_str := isoformat start_time in
     let end_str := isoformat end_time in
     data ← lift (timeseries_get_range (client self) DATASET [SYMBOL] SCHEMA
                                       start_str end_str);
     df ← lift (to_df data);
     df ← lift (promote_ts_event df);
     df ← lift (getitem_list keep_cols df);
     df ← lift (parse_index df);
     _ ← logger_info ("Successfully fetched " +:+ pretty (len df) +:+ " OHLCV records");
     mret df)
    (fun e =>
       _ ← logger_error ("Error fetching OHLCV data: " +:+ str_exn e);
       raise e).

Definition fetch_statistics (self : NQDataFetcher) (start_time end_time : datetime)
  : M (DataFrame V) :=
  try_except_Exception
    (_ ← logger_info ("Fetching " +:+ SYMBOL +:+ " statistics from " +:+
                      str_datetime start_time +:+ " to " +:+ str_datetime end_time);
     data ← lift (metadata_get_definition (client self) DATASET [SYMBOL]
                                          (dt_date start_time) (dt_date end_time));
     df ← lift (pd_DataFrame data);
     _ ← logger_info "Successfully fetched statistics records";
     mret df)
    (fun e =>
       _ ← logger_error ("Error fetching statistics data: " +:+ str_exn e);
       raise e).

Definition fetch_trades (self : NQDataFetcher) (start_time end_time : datetime)
  : M (DataFrame V) :=
  try_except_Exception
    (_ ← logger_info ("Fetching " +:+ SYMBOL +:+ " trades from " +:+
                      str_datetime start_time +:+ " to " +:+ str_datetime end_time);
     let start_str := isoformat start_time in
     let end_str := isoformat end_time in
     data ← lift (timeseries_get_range (client self) DATASET [SYMBOL] SCHEMA_TRADES
                                       start_str end_str);
     df ← lift (to_df data);
     df ← lift (promote_ts_event df);
     df ← lift (parse_index df);
     _ ← logger_info ("Successfully fetched " +:+ pretty (len df) +:+ " trade records");
     mret df)
    (fun e =>
       _ ← logger_error ("Error fetching trades data: " +:+ str_exn e);
       raise e).

Definition fetch_mbp10 (self : NQDataFetcher) (start_time end_time : datetime)
  : M (DataFrame V) :=
  try_except_Exception
    (_ ← logger_info ("Fetching " +:+ SYMBOL +:+ " MBP-10 data from " +:+
                      str_datetime start_time +:+ " to " +:+ str_datetime end_time);
     let start_str := isoformat start_time in
     let end_str := isoformat end_time in
     data ← lift (timeseries_get_range (client self) DATASET [SYMBOL] SCHEMA_MBP
                                       start_str end_str);
     df ← lift (to_df data);
     df ← lift (promote_ts_event df);
     df ← lift (parse_index df);
     _ ← logger_info ("Successfully fetched " +:+ pretty (len df) +:+ " MBP-10 records");
     mret df)
    (fun e =>
       _ ← logger_error ("Error fetching MBP-10 data: " +:+ str_exn e);
       raise e).

(** [if df_to_save.columns[0] == 'ts_event':
      df_to_save.rename(columns={'ts_event': 'timestamp'}, inplace=True)]. *)
Definition publish_timestamp (df_to_save : DataFrame V) : outcome (DataFrame V) :=
  match labels df_to_save with
  | [] => Raise (IndexError "index 0 is out of bounds for axis 0 with size 0")
  | first :: _ =>
      if string_eqb first "ts_event"
      then Ok (rename_columns "ts_event" "timestamp" df_to_save)
      else Ok df_to_save
  end.

Definition save_to_csv (self : NQDataFetcher) (df : DataFrame V) (filepath : string)
  : M unit :=
  try_except_Exception
    (_ ← with_fs (os_makedirs_exist_ok (dirname filepath));
     df_to_save ← lift (reset_index df);
     df_to_save ← lift (publish_timestamp df_to_save);
     _ ← to_csv_file df_to_save filepath;
     logger_info ("Data saved to " +:+ filepath))
    (fun e =>
       _ ← logger_error ("Error saving data to CSV: " +:+ str_exn e);
       raise e).

(** ** The front ends ([main.py]) *)

(** [run_cli]. *)
Definition run_cli : M unit :=
  try_except_Exception
    (fetcher ← NQDataFetcher_init;
     df ← fetch_data fetcher DEFAULT_START_TIME DEFAULT_END_TIME;
     if Nat.ltb 0 (len df) then
       _ ← save_to_csv fetcher df OUTPUT_FILE;
       print ("Data successfully saved to " +:+ OUTPUT_FILE)
     else
       print "No data available for the specified date range.")
    (fun e =>
       _ ← logger_error ("Error in CLI mode: " +:+ str_exn e);
       sys_exit 1).

(** The batch process: [run_cli()] as the main module; its exit status
    and final world. *)
Definition batch_process (w : world) : Z * world :=
  let (o, w') := run_cli w in (exit_status o, w').

(** The arguments of [st.download_button]. *)
Record download : Type := {
  dl_label : string;
  dl_data : string;
  dl_file_name : string;
  dl_mime : string
}.

(** What one run of the page script leaves on the page, below the inputs:
    nothing, the chart and tables of a frame with its download button, the
    warning, or the error box (under what was displayed before the
    failure). *)
Inductive page : Type :=
| Idle
| Displayed (df : DataFrame V) (dl : download)
| NoData (warning : string)
| ErrorShown (message : string).

(** The download button of [run_streamlit]. *)
Definition download_button (df : DataFrame V) (start_date end_date : date) : download :=
  {| dl_label := "⬇️ Download CSV";
     dl_data := to_csv df;
     dl_file_name := "nq_futures_data_" +:+ str_date start_date +:+ "_" +:+
                     str_date end_date +:+ ".csv";
     dl_mime := "text/csv" |}.

(** The chart, the summary and the raw-data table of [run_streamlit], in
    their order. *)
Definition display (df : DataFrame V) : outcome unit :=
  match plot_ohlcv df with
  | Raise e => Raise e
  | Ok fig =>
      match st_plotly_chart fig with
      | Raise e => Raise e
      | Ok _ =>
          match show_summary df with
          | Raise e => Raise e
          | Ok _ => show_raw_data df
          end
      end
  end.

(** [run_streamlit] for the chosen dates and the state of the fetch
    button.  The display steps run inside the [try]: an [Exception] of
    theirs ends in the handler like one of the fetch.  The calls that only
    lay out the page or show a fixed text ([st.spinner], [st.columns],
    [st.markdown], [st.warning], [st.error]) and [st.download_button]
    leave no trace here but the [page]. *)
Definition run_streamlit (start_date end_date : date) (fetch_button : bool) : M page :=
  let start_time := combine_min_utc start_date in
  let end_time := combine_min_utc end_date in
  if fetch_button then
    try_except_Exception
      (fetcher ← NQDataFetcher_init;
       df ← fetch_data fetcher start_time end_time;
       if Nat.ltb 0 (len df)
       then
         _ ← lift (display df);
         mret (Displayed df (download_button df start_date end_date))
       else mret (NoData "⚠️ No data available for the selected date range."))
      (fun e =>
         _ ← logger_error ("Error in Streamlit app: " +:+ str_exn e);
         mret (ErrorShown ("❌ Error: " +:+ str_exn e)))
  else mret Idle.
End Fetcher.

(** ** The four fetch operations, uniformly *)

Inductive fetch_op : Type := Bars | Reference | Trades | Depth.

Section Operations.
Context {V : Type} `{!Pandas V} `{!Databento V} `{!PyStrExn}.

Definition run_fetch (op : fetch_op)
  : NQDataFetcher -> datetime -> datetime -> M (DataFrame V) :=
  match op with
  | Bars => fetch_data
  | Reference => fetch_statistics
  | Trades => fetch_trades
  | Depth => fetch_mbp10
  end.

Definition op_schema (op : fetch_op) : string :=
  match op with
  | Bars => SCHEMA
  | Reference => SCHEMA_STATS
  | Trades => SCHEMA_TRADES
  | Depth => SCHEMA_MBP
  end.

(** The table the vendor returns for a time-series request, or the
    exception the request or its conversion raises. *)
Definition vendor_table (self : NQDataFetcher) (schema : string)
           (start_time end_time : datetime) : outcome (DataFrame V) :=
  match timeseries_get_range (client self) DATASET [SYMBOL] schema
                             (isoformat start_time) (isoformat end_time) with
  | Ok data => to_df data
  | Raise e => Raise e
  end.


(** The info record written before the vendor call. *)
Definition start_message (op : fetch_op) (start_time end_time : datetime) : string :=
  "Fetching " +:+ SYMBOL +:+
  (match op with
   | Bars => " OHLCV data from "
   | Reference => " statistics from "
   | Trades => " trades from "
   | Depth => " MBP-10 data from "
   end) +:+ str_datetime start_time +:+ " to " +:+ str_datetime end_time.

(** The error record written by the handler. *)
Definition error_message (op : fetch_op) (e : exn) : string :=
  (match op with
   | Bars => "Error fetching OHLCV data: "
   | Reference => "Error fetching statistics data: "
   | Trades => "Error fetching trades data: "
   | Depth => "Error fetching MBP-10 data: "
   end) +:+ str_exn e.
(** The records a failed fetch leaves in the log: the info record with the
    time range, then the error record when the handler ran. *)
Definition failure_records (op : fetch_op) (start_time end_time : datetime) (x : exn)
  : list (level * string) :=
  (INFO, start_message op start_time end_time) ::
  (if exc_is_Exception x then [(ERROR, error_message op x)] else []).

(** The frame [save_to_csv] writes for [df]. *)
Definition frame_to_save (df : DataFrame V) : outcome (DataFrame V) :=
  match reset_index df with
  | Ok d => publish_timestamp d
  | Raise e => Raise e
  end.

(** [export_failure df filepath fs e fs']: exporting [df] to [filepath] on
    the file system [fs] fails with [e] in the directory creation or in the
    file write, and leaves the file system [fs']. *)
Inductive export_failure (df : DataFrame V) (filepath : string) (fs : filesystem)
  : exn -> filesystem -> Prop :=
| makedirs_fails e fs1 :
    os_makedirs_exist_ok (dirname filepath) fs = (Raise e, fs1) ->
    export_failure df filepath fs e fs1
| write_fails e fs1 d fs2 :
    os_makedirs_exist_ok (dirname filepath) fs = (Ok tt, fs1) ->
    frame_to_save df = Ok d ->
    write_text filepath (to_csv_no_index d) fs1 = (Raise e, fs2) ->
    export_failure df filepath fs e fs2.

(** The error record of [save_to_csv]. *)
Definition save_error_record (e : exn) : level * string :=
  (ERROR, "Error saving data to CSV: " +:+ str_exn e).

(** The info record written after a successful fetch. *)
Definition success_message (op : fetch_op) (df : DataFrame V) : string :=
  match op with
  | Bars => "Successfully fetched " +:+ pretty (len df) +:+ " OHLCV records"
  | Reference => "Successfully fetched statistics records"
  | Trades => "Successfully fetched " +:+ pretty (len df) +:+ " trade records"
  | Depth => "Successfully fetched " +:+ pretty (len df) +:+ " MBP-10 records"
  end.

(** The columns of [t] labelled [l]. *)
Definition labelled (l : string) (t : DataFrame V) : list (string * list V) :=
  filter (fun c => c.1 = l) (columns t).

(** At most one column of [t] is labelled [l]. *)
Definition unrepeated (l : string) (t : DataFrame V) : Prop :=
  length (labelled l t) <= 1.

(** The columns of [cols] selected by [keys], as [df[keys]] orders them. *)
Definition select (keys : list string) (cols : list (string * list V))
  : list (string * list V) :=
  flat_map (fun k => filter (fun c => c.1 = k) cols) keys.

(** The info record of [NQDataFetcher.__init__]. *)
Definition init_record : level * string :=
  (INFO, "Initialized Databento client for " +:+ DATASET).

(** The line batch mode prints for a table without rows. *)
Definition no_data_line : string := "No data available for the specified date range.".

End Operations.

(** [r] surfaces an exception of class [cls] that wraps [cause]. *)
Definition surfaces_wrapped {A} (cls : string) (r : outcome A * world) (cause : exn) : Prop :=
  exists e', r.1 = Raise e' /\ wraps cls e' cause.


(** The world [w] with the records [rs] appended to its log. *)
Definition logged (rs : list (level * string)) (w : world) : world :=
  {| w_log := w_log w ++ rs; w_stdout := w_stdout w; w_fs := w_fs w |}.

Fixpoint exn_depth (e : exn) : nat :=
  match e with
  | Exn _ _ _ c =>
      match c with
      | None => 0
      | Some e' => S (exn_depth e')
      end
  end.

(** ** Fixtures *)

Module Fixture.
(** Cells are kept as the text the vendor printed. *)
#[export] Instance pandas_text : Pandas string :=
  {| pd_to_datetime := Ok;
     csv_repr := id;
     range_cell := pretty;
     tuple_cell := fun vs => "(" +:+ String.concat ", " vs +:+ ")" |}.

(** [repr] of a text without quotes or escapes, [str] and [repr] of an
    argument. *)
Definition repr_str (s : string) : string := "'" +:+ s +:+ "'".

Definition str_pyval (v : pyval) : string :=
  match v with
  | PyStr s => s
  | PyInt z => pretty z
  end.

Definition repr_pyval (v : pyval) : string :=
  match v with
  | PyStr s => repr_str s
  | PyInt z => pretty z
  end.

(** The classes whose [str] is that of [OSError]. *)
Definition os_error_classes : list string :=
  ["OSError"; "FileNotFoundError"; "NotADirectoryError"; "IsADirectoryError";
   "FileExistsError"; "PermissionError"].

(** Python's [str(e)]: for an [OSError] with an error number and a
    message, [[Errno n] message], followed by [: 'name'] when it has a file
    name; for a [KeyError] with one argument, its [repr]; otherwise nothing
    without arguments, the [str] of a single argument and the [repr] of the
    tuple of several. *)
#[export] Instance str_exn_text : PyStrExn := fun e =>
  let tuple := "(" +:+ String.concat ", " (repr_pyval <$> exc_args e) +:+ ")" in
  let os_error := bool_decide (exc_class e ∈ os_error_classes) in
  match exc_args e with
  | [] => ""
  | [v] => if string_eqb (exc_class e) "KeyError" then repr_pyval v else str_pyval v
  | [PyInt n; PyStr msg] =>
      if os_error then "[Errno " +:+ pretty n +:+ "] " +:+ msg else tuple
  | [PyInt n; PyStr msg; PyStr name] =>
      if os_error
      then "[Errno " +:+ pretty n +:+ "] " +:+ msg +:+ ": " +:+ repr_str name
      else tuple
  | _ => tuple
  end.

(** A page whose display steps all succeed. *)
#[export] Instance streamlit_shows : Streamlit string :=
  {| Figure := DataFrame string;
     plot_ohlcv := Ok;
     st_plotly_chart := fun _ => Ok tt;
     show_summary := fun _ => Ok tt;
     show_raw_data := fun _ => Ok tt |}.

Definition AttributeError : exn :=
  Exn "AttributeError" [PyStr "'MetadataHttpAPI' object has no attribute 'get_definition'"]
      true None.

(** A client whose time-series request has the outcome [range]. *)
Definition vendor (range : outcome (DataFrame string)) : Databento string :=
  {| Client := unit;
     DBNStore := DataFrame string;
     InstrumentDefs := unit;
     Historical := fun _ => Ok tt;
     timeseries_get_range := fun _ _ _ _ _ _ => range;
     to_df := Ok;
     metadata_get_definition := fun _ _ _ _ _ => Raise AttributeError;
     pd_DataFrame := fun _ => Raise AttributeError |}.

Definition fetcher (range : outcome (DataFrame string)) : @NQDataFetcher string (vendor range) :=
  {| client := tt : @Client string (vendor range) |}.

(** Two one-minute bars, as a vendor table with its bookkeeping columns. *)
Definition bars : DataFrame string :=
  {| index_name := None;
     index := ["0"; "1"];
     columns :=
       [("ts_event", ["2025-03-21 09:30:00+00:00"; "2025-03-21 09:31:00+00:00"]);
        ("rtype", ["33"; "33"]);
        ("instrument_id", ["4378"; "4378"]);
        ("open", ["100.0"; "100.5"]);
        ("high", ["101.0"; "102.0"]);
        ("low", ["99.5"; "100.0"]);
        ("close", ["100.5"; "101.5"]);
        ("volume", ["1000"; "1500"]);
        ("symbol", ["NQM5"; "NQM5"])] |}.

(** The bars after normalisation. *)
Definition ohlcv : DataFrame string :=
  {| index_name := Some "ts_event";
     index := ["2025-03-21 09:30:00+00:00"; "2025-03-21 09:31:00+00:00"];
     columns :=
       [("open", ["100.0"; "100.5"]);
        ("high", ["101.0"; "102.0"]);
        ("low", ["99.5"; "100.0"]);
        ("close", ["100.5"; "101.5"]);
        ("volume", ["1000"; "1500"])] |}.



(** A vendor table with no rows and no columns. *)
Definition no_rows_no_columns : DataFrame string :=
  {| index_name := None; index := []; columns := [] |}.

(** A vendor table with no rows that still carries the schema's columns. *)
Definition no_rows : DataFrame string :=
  {| index_name := Some "ts_event";
     index := [];
     columns := [("open", []); ("high", []); ("low", []); ("close", []);
                 ("volume", []); ("symbol", [])] |}.

(** The normalised table without rows. *)
Definition no_bars : DataFrame string :=
  {| index_name := Some "ts_event";
     index := [];
     columns := [("open", []); ("high", []); ("low", []); ("close", []);
                 ("volume", [])] |}.

Definition boom : exn := Exn "BentoServerError" [PyStr "503 Service Unavailable"] true None.

(** A fresh process in an empty working directory [/srv]. *)
Definition w0 : world :=
  {| w_log := [];
     w_stdout := [];
     w_fs := {| cwd := ["srv"]; nodes := {[ ["srv"] := Dir ]} |} |}.
(** The same, but with a regular file named [data] in the way of the
    output directory. *)
Definition w_blocked : world :=
  {| w_log := [];
     w_stdout := [];
     w_fs := {| cwd := ["srv"];
                nodes := {[ ["srv"] := Dir; ["srv"; "data"] := File "notes" ]} |} |}.

Definition FETCH_START : date := dt_date DEFAULT_START_TIME.
Definition FETCH_END : date := dt_date DEFAULT_END_TIME.
End Fixture.

(** ** Scenarios *)

Import Fixture.

(** The fetch operations, export and front ends over the fixture client. *)
Definition fetch_with (op : fetch_op) (range : outcome (DataFrame string))
  : M (DataFrame string) :=
  @run_fetch string pandas_text (vendor range) str_exn_text op (fetcher range)
             DEFAULT_START_TIME DEFAULT_END_TIME.

Definition export_with (df : DataFrame string) (filepath : string) : M unit :=
  @save_to_csv string pandas_text (vendor (Ok bars)) str_exn_text
               (fetcher (Ok bars)) df filepath.

Definition batch_with (range : outcome (DataFrame string)) (w : world) : Z * world :=
  @batch_process string pandas_text (vendor range) str_exn_text w.

Definition page_with (range : outcome (DataFrame string)) : M (@page string) :=
  @run_streamlit string pandas_text (vendor range) str_exn_text streamlit_shows
                 FETCH_START FETCH_END true.

(** ** The steps of a fetch, and the shapes of frames and directories *)

Section Steps.
Context {V : Type} `{!Pandas V} `{!Databento V} `{!PyStrExn}.

(** Run [f] on the value of [o], or pass its exception on. *)
Definition and_then {A B} (o : outcome A) (f : A -> outcome B) : outcome B :=
  match o with
  | Ok a => f a
  | Raise e => Raise e
  end.

(** The calls in the [try] block of a fetch operation that can raise, in
    their order, without the log. *)
Definition fetch_steps (op : fetch_op) (self : NQDataFetcher)
           (start_time end_time : datetime) : outcome (DataFrame V) :=
  match op with
  | Bars =>
      and_then (and_then (and_then (vendor_table self SCHEMA start_time end_time)
                                   promote_ts_event)
                         (getitem_list keep_cols))
               parse_index
  | Reference =>
      and_then (metadata_get_definition (client self) DATASET [SYMBOL]
                                        (dt_date start_time) (dt_date end_time))
               pd_DataFrame
  | Trades | Depth =>
      and_then (and_then (vendor_table self (op_schema op) start_time end_time)
                         promote_ts_event)
               parse_index
  end.

(** The records a fetch adds to the log, by its outcome. *)
Definition fetch_records (op : fetch_op) (start_time end_time : datetime)
           (o : outcome (DataFrame V)) : list (level * string) :=
  (INFO, start_message op start_time end_time) ::
  match o with
  | Ok df => [(INFO, success_message op df)]
  | Raise x => if exc_is_Exception x then [(ERROR, error_message op x)] else []
  end.

(** The name and the values of the index a fetch parses: those of the
    vendor table's index when it has no [ts_event] column, those of the
    [ts_event] column when it has one, and under that name one tuple per
    row when it has several. *)
Definition event_index (t : DataFrame V) : option string * list V :=
  match filter (fun c => c.1 = "ts_event") (columns t) with
  | [] => (index_name t, index t)
  | [c] => (Some "ts_event", c.2)
  | cs => (Some "ts_event", tuple_index cs (len t))
  end.

(** The columns a fetch operation keeps of a vendor table. *)
Definition kept_columns (op : fetch_op) (t : DataFrame V) : list (string * list V) :=
  match op with
  | Bars => select keep_cols (columns t)
  | _ => filter (fun c => c.1 <> "ts_event") (columns t)
  end.

(** Every column of [df] has one value per row. *)
Definition rectangular (df : DataFrame V) : Prop :=
  Forall (fun c => length c.2 = len df) (columns df).

(** The error record of [run_cli] and the one of [run_streamlit]. *)
Definition cli_error_record (e : exn) : level * string :=
  (ERROR, "Error in CLI mode: " +:+ str_exn e).

Definition app_error_record (e : exn) : level * string :=
  (ERROR, "Error in Streamlit app: " +:+ str_exn e).

(** The line batch mode prints after an export. *)
Definition saved_line : string := "Data successfully saved to " +:+ OUTPUT_FILE.

(** The info record of a successful export. *)
Definition saved_record (filepath : string) : level * string :=
  (INFO, "Data saved to " +:+ filepath).
End Steps.

(** The world [w] with [line] printed. *)
Definition printed (line : string) (w : world) : world :=
  {| w_log := w_log w; w_stdout := w_stdout w ++ [line]; w_fs := w_fs w |}.

(** Nothing stands in the way of the configured output file: [data] in the
    working directory is absent or a directory, and the file's name in it is
    not taken by a directory. *)
Definition output_path_usable (fs : filesystem) : Prop :=
  (forall text, node_at (nodes fs) (cwd fs ++ ["data"]) <> Some (File text)) /\
  node_at (nodes fs) (cwd fs ++ ["data"; "nq_futures_data.csv"]) <> Some Dir.

(** ** The logger ([logger.py]) *)

Module Logging.

Inductive stream : Type := Stdout | Stderr.

(** [logging.Formatter(fmt, datefmt=...)]. *)
Record Formatter : Type := { fmt : string; datefmt : string }.

(** [logging.StreamHandler(stream)] and its formatter. *)
Record Handler : Type := { h_stream : stream; h_formatter : option Formatter }.

(** A [logging.Logger]: its level and its handlers. *)
Record Logger : Type := { lg_level : nat; lg_handlers : list Handler }.

Definition NOTSET : nat := 0.
Definition LEVEL_INFO : nat := 20.

(** [logging.getLogger(name)]: the logger registered under [name], made
    and registered on first use. *)
Definition getLogger (name : string) (reg : gmap string Logger)
  : Logger * gmap string Logger :=
  match reg !! name with
  | Some l => (l, reg)
  | None =>
      let l := {| lg_level := NOTSET; lg_handlers := [] |} in
      (l, <[name := l]> reg)
  end.

(** The handler [setup_logger] builds. *)
Definition console_handler : Handler :=
  {| h_stream := Stdout;
     h_formatter :=
       Some {| fmt := "%(asctime)s - %(name)s - %(levelname)s - %(message)s";
               datefmt := "%Y-%m-%d %H:%M:%S" |} |}.

(** [setup_logger(name)]: the registry it leaves; the logger it returns is
    the one registered under [name]. *)
Definition setup_logger (name : string) (reg : gmap string Logger) : gmap string Logger :=
  let (logger, reg1) := getLogger name reg in
  match lg_handlers logger with
  | _ :: _ => reg1
  | [] =>
      <[name := {| lg_level := LEVEL_INFO;
                   lg_handlers := lg_handlers logger ++ [console_handler] |}]> reg1
  end.

(** The default argument of [setup_logger]. *)
Definition default_name : string := "futures_nq".

(** [n] calls of [setup_logger(name)] in a row. *)
Fixpoint setup_logger_times (n : nat) (name : string) (reg : gmap string Logger)
  : gmap string Logger :=
  match n with
  | O => reg
  | S n' => setup_logger_times n' name (setup_logger name reg)
  end.

End Logging.

(** ** More fixtures *)

Module Samples.
Import Fixture.

(** A client whose definition request returns one record per instrument. *)
Definition definitions : DataFrame string :=
  {| index_name := None;
     index := ["0"];
     columns := [("raw_symbol", ["NQM5"]); ("expiration", ["2025-06-20"]);
                 ("ts_event", ["2025-03-21 00:00:00+00:00"])] |}.


Definition vendor_defs : Databento string :=
  {| Client := unit;
     DBNStore := DataFrame string;
     InstrumentDefs := unit;
     Historical := fun _ => Ok tt;
     timeseries_get_range := fun _ _ _ _ _ _ => Ok bars;
     to_df := Ok;
     metadata_get_definition := fun _ _ _ _ _ => Ok tt;
     pd_DataFrame := fun _ => Ok definitions |}.

Definition fetcher_defs : @NQDataFetcher string vendor_defs :=
  {| client := tt : @Client string vendor_defs |}.

(** A pandas whose [to_datetime] rejects every non-empty index. *)
Definition unparsable : exn :=
  Exn "ParserError" [PyStr "Unknown datetime string format"] true None.

Definition pandas_strict : Pandas string :=
  {| pd_to_datetime := fun vs => match vs with [] => Ok [] | _ => Raise unparsable end;
     csv_repr := id;
     range_cell := pretty;
     tuple_cell := tuple_cell (Pandas := pandas_text) |}.

(** The opening bell on the default start date. *)
Definition opening : datetime :=
  {| dt_date := dt_date DEFAULT_START_TIME;
     hour := 9; minute := 30; second := 0; microsecond := 0;
     utcoffset := Some 0%Z |}.

(** A frame whose index has the name of one of its columns. *)
Definition clashing : DataFrame string :=
  {| index_name := Some "symbol";
     index := ["NQM5"];
     columns := [("symbol", ["NQM5"]); ("close", ["100.5"])] |}.

(** The bars with the opening price in two columns. *)
Definition bars_open_twice : DataFrame string :=
  {| index_name := None;
     index := ["0"; "1"];
     columns :=
       [("ts_event", ["2025-03-21 09:30:00+00:00"; "2025-03-21 09:31:00+00:00"]);
        ("open", ["100.0"; "100.5"]);
        ("open", ["100.25"; "100.75"]);
        ("high", ["101.0"; "102.0"]);
        ("low", ["99.5"; "100.0"]);
        ("close", ["100.5"; "101.5"]);
        ("volume", ["1000"; "1500"])] |}.

(** What [fetch_data] returns for them. *)
Definition ohlcv_open_twice : DataFrame string :=
  {| index_name := Some "ts_event";
     index := ["2025-03-21 09:30:00+00:00"; "2025-03-21 09:31:00+00:00"];
     columns :=
       [("open", ["100.0"; "100.5"]);
        ("open", ["100.25"; "100.75"]);
        ("high", ["101.0"; "102.0"]);
        ("low", ["99.5"; "100.0"]);
        ("close", ["100.5"; "101.5"]);
        ("volume", ["1000"; "1500"])] |}.

(** The bars as a table indexed by the receive time, without a column for
    the event time. *)
Definition bars_by_recv : DataFrame string :=
  {| index_name := Some "ts_recv";
     index := ["2025-03-21 09:30:00.000105+00:00"; "2025-03-21 09:31:00.000311+00:00"];
     columns :=
       [("open", ["100.0"; "100.5"]);
        ("high", ["101.0"; "102.0"]);
        ("low", ["99.5"; "100.0"]);
        ("close", ["100.5"; "101.5"]);
        ("volume", ["1000"; "1500"]);
        ("symbol", ["NQM5"; "NQM5"])] |}.

(** What [fetch_data] returns for them. *)
Definition ohlcv_by_recv : DataFrame string :=
  {| index_name := Some "ts_recv";
     index := ["2025-03-21 09:30:00.000105+00:00"; "2025-03-21 09:31:00.000311+00:00"];
     columns :=
       [("open", ["100.0"; "100.5"]);
        ("high", ["101.0"; "102.0"]);
        ("low", ["99.5"; "100.0"]);
        ("close", ["100.5"; "101.5"]);
        ("volume", ["1000"; "1500"])] |}.




(** A label with a carriage return in it. *)
Definition bid_cr_ask : string := "bid" +:+ String CR "ask".

(** Quotes indexed by event time, one column under that label. *)
Definition quotes : DataFrame string :=
  {| index_name := Some "ts_event";
     index := ["2025-03-21 09:30:00+00:00"];
     columns := [(bid_cr_ask, ["19850.0"]); ("size", ["4"])] |}.

(** A page whose chart cannot be drawn. *)
Definition no_chart : exn :=
  Exn "ValueError" [PyStr "Invalid value received for the 'open' property of candlestick"]
      true None.

Definition streamlit_fails : Streamlit string :=
  {| Figure := DataFrame string;
     plot_ohlcv := fun _ => Raise no_chart;
     st_plotly_chart := fun _ => Ok tt;
     show_summary := fun _ => Ok tt;
     show_raw_data := fun _ => Ok tt |}.

(** A world with other files around the output path. *)
Definition w_busy : world :=
  {| w_log := [];
     w_stdout := [];
     w_fs := {| cwd := ["srv"];
                nodes := {[ ["srv"] := Dir;
                            ["srv"; "data"] := Dir;
                            ["srv"; "data"; "old.csv"] := File "kept";
                            ["srv"; "notes.txt"] := File "also kept" ]} |} |}.
End Samples.

(** * Properties *)

(** ** The monad *)

Lemma bind_Ok {A B} (m : M A) (k : A -> M B) w a w' :
  m w = (Ok a, w') -> (m ≫= k) w = k a w'.
Proof. intros Hm. unfold mbind, M_bind. now rewrite Hm. Qed.

Lemma bind_Raise {A B} (m : M A) (k : A -> M B) w e w' :
  m w = (Raise e, w') -> (m ≫= k) w = (Raise e, w').
Proof. intros Hm. unfold mbind, M_bind. now rewrite Hm. Qed.

Lemma bind_lift_Ok {A B} (o : outcome A) (k : A -> M B) w a :
  o = Ok a -> (lift o ≫= k) w = k a w.
Proof. intros ->. reflexivity. Qed.

Lemma bind_lift_Raise {A B} (o : outcome A) (k : A -> M B) w e :
  o = Raise e -> (lift o ≫= k) w = (Raise e, w).
Proof. intros ->. reflexivity. Qed.

Lemma bind_log {B} l msg (k : unit -> M B) w :
  (log_record l msg ≫= k) w = k tt (logged [(l, msg)] w).
Proof. reflexivity. Qed.

Lemma try_Ok {A} (body : M A) h w a w' :
  body w = (Ok a, w') -> try_except_Exception body h w = (Ok a, w').
Proof. intros Hb. unfold try_except_Exception. now rewrite Hb. Qed.

Lemma try_Raise {A} (body : M A) h w e w' :
  body w = (Raise e, w') ->
  try_except_Exception body h w =
  if exc_is_Exception e then h e w' else (Raise e, w').
Proof. intros Hb. unfold try_except_Exception. now rewrite Hb. Qed.

(** A successful [try] block is a successful body. *)
Lemma try_Ok_inv {A} (body : M A) (h : exn -> M A) w a w' :
  (forall e w1, exists e' w2, h e w1 = (Raise e', w2)) ->
  try_except_Exception body h w = (Ok a, w') -> body w = (Ok a, w').
Proof.
  intros Hh. unfold try_except_Exception.
  destruct (body w) as [[b|e] w1]; [done|].
  destruct (exc_is_Exception e); [|done].
  destruct (Hh e w1) as (e' & w2 & ->). done.
Qed.

Lemma logged_app rs1 rs2 w : logged rs2 (logged rs1 w) = logged (rs1 ++ rs2) w.
Proof. unfold logged; simpl. now rewrite <- app_assoc. Qed.

(** No exception is its own cause. *)
Lemma exn_not_own_cause (e : exn) : exc_cause e <> Some e.
Proof.
  intros Hc. assert (Hd : exn_depth e = S (exn_depth e)); [|lia].
  destruct e as [c a b [e'|]]; simpl in *; [|done].
  injection Hc as Hc. rewrite Hc at 1. reflexivity.
Qed.

Lemma not_wraps_self cls (e : exn) : ~ wraps cls e e.
Proof. intros [_ Hc]. exact (exn_not_own_cause e Hc). Qed.

Lemma reraised_not_wrapped {A} cls (r : outcome A * world) e :
  r.1 = Raise e -> ~ surfaces_wrapped cls r e.
Proof.
  intros Hr (e' & He' & Hw). rewrite Hr in He'. injection He' as <-.
  exact (not_wraps_self cls e Hw).
Qed.

(** ** Failure of the vendor call *)

Section VendorFailure.
Context {V : Type} `{!Pandas V} `{!Databento V} `{!PyStrExn}.

(** The handler of every fetch operation logs and re-raises. *)
Lemma fetch_handler (op : fetch_op) (x : exn) (w : world) :
  (_ ← logger_error (error_message op x); raise x : M (DataFrame V)) w =
  (Raise x, logged [(ERROR, error_message op x)] w).
Proof. reflexivity. Qed.

Lemma vendor_table_Raise self schema s e x :
  vendor_table self schema s e = Raise x ->
  forall {B} (k : DataFrame V -> M B) w,
    (data ← lift (timeseries_get_range (client self) DATASET [SYMBOL] schema
                                       (isoformat s) (isoformat e));
     df ← lift (to_df data); k df) w = (Raise x, w).
Proof.
  unfold vendor_table. intros Hv B k w.
  destruct (timeseries_get_range _ _ _ _ _ _) as [data|e0] eqn:Hr.
  - rewrite (bind_lift_Ok _ _ _ data) by done.
    now rewrite (bind_lift_Raise _ _ _ x).
  - injection Hv as ->. now rewrite (bind_lift_Raise _ _ _ x).
Qed.

Lemma vendor_table_Ok self schema s e t :
  vendor_table self schema s e = Ok t ->
  forall {B} (k : DataFrame V -> M B) w,
    (data ← lift (timeseries_get_range (client self) DATASET [SYMBOL] schema
                                       (isoformat s) (isoformat e));
     df ← lift (to_df data); k df) w = k t w.
Proof.
  unfold vendor_table. intros Hv B k w.
  destruct (timeseries_get_range _ _ _ _ _ _) as [data|e0] eqn:Hr; [|done].
  rewrite (bind_lift_Ok _ _ _ data) by done.
  now rewrite (bind_lift_Ok _ _ _ t).
Qed.

End VendorFailure.

(** ** Paths and the file system *)





Lemma walk_dirs_error_is_Exception ns path cur comps e :
  walk_dirs ns path cur comps = Raise e -> exc_is_Exception e = true.
Proof.
  revert cur. induction comps as [|c cs IH]; intros cur; simpl; [done|].
  repeat case_match; eauto; now intros [= <-].
Qed.

Lemma make_dirs_error_is_Exception ns seen cur comps e ns' :
  make_dirs ns seen cur comps = (Raise e, ns') -> exc_is_Exception e = true.
Proof.
  revert ns seen cur. induction comps as [|c cs IH]; intros ns seen cur; simpl; [done|].
  repeat case_match; eauto; now intros [= <- <-].
Qed.

Lemma os_makedirs_error_is_Exception name fs e fs' :
  os_makedirs_exist_ok name fs = (Raise e, fs') -> exc_is_Exception e = true.
Proof.
  unfold os_makedirs_exist_ok. case_match; [now intros [= <- <-]|].
  destruct (make_dirs _ _ _ _) as [o ns] eqn:Hm.
  intros [= -> <-]. eauto using make_dirs_error_is_Exception.
Qed.

(** A failed write changes nothing. *)
Lemma write_text_Raise path text fs e fs' :
  write_text path text fs = (Raise e, fs') -> exc_is_Exception e = true /\ fs' = fs.
Proof.
  unfold write_text.
  destruct (resolve_file fs path) as [k|e0] eqn:Hres.
  - destruct (node_at (nodes fs) k) as [[|t]|]; [|done..]. now intros [= <- <-].
  - intros [= <- <-]. split; [|done]. revert Hres. unfold resolve_file.
    destruct (string_eqb path ""); [now intros [= <-]|].
    destruct (walk_dirs _ _ _ _) as [cur|e1] eqn:Hw.
    + case_match; [now intros [= <-]|done].
    + intros [= <-]. eauto using walk_dirs_error_is_Exception.
Qed.

(** A successful write, taken apart. *)
Lemma write_text_Ok_inv path text fs fs2 :
  write_text path text fs = (Ok tt, fs2) ->
  exists k,
    resolve_file fs path = Ok k /\
    node_at (nodes fs) k <> Some Dir /\
    fs2 = {| cwd := cwd fs; nodes := <[k := File text]> (nodes fs) |}.
Proof.
  unfold write_text.
  destruct (resolve_file fs path) as [k|] eqn:Hres; [|done].
  intros Hw. exists k. split; [done|].
  destruct (node_at (nodes fs) k) as [[|t]|]; [done| |]; split; congruence.
Qed.

(** Writing leaves the directories on the way to the file as they were. *)
Lemma walk_dirs_insert_file ns path cur comps r k text :
  node_at ns k <> Some Dir ->
  walk_dirs ns path cur comps = Ok r ->
  walk_dirs (<[k := File text]> ns) path cur comps = Ok r.
Proof.
  intros Hk. revert cur. induction comps as [|c cs IH]; intros cur; simpl; [done|].
  destruct (skip_component c); [apply IH|].
  destruct (string_eqb c ".."); [apply IH|].
  destruct (node_at ns (cur ++ [c])) as [[|t]|] eqn:Hn; [|done..].
  intros Hw.
  assert (Hne : k <> cur ++ [c]) by (intros ->; congruence).
  assert (Hn' : node_at (<[k := File text]> ns) (cur ++ [c]) = Some Dir).
  { destruct (cur ++ [c]) eqn:Hc; [done|]. simpl in *.
    now rewrite lookup_insert_ne. }
  rewrite Hn'. now apply IH.
Qed.

Lemma resolved_key_not_root fs path k : resolve_file fs path = Ok k -> k <> [].
Proof.
  unfold resolve_file.
  destruct (string_eqb path ""); [done|].
  destruct (walk_dirs _ _ _ _) as [cur|]; [|done].
  case_match; [done|].
  intros [= <-]. now destruct cur.
Qed.

(** Writing a file does not move the file it names. *)
Lemma resolve_file_after_write fs path k text :
  resolve_file fs path = Ok k ->
  node_at (nodes fs) k <> Some Dir ->
  resolve_file {| cwd := cwd fs; nodes := <[k := File text]> (nodes fs) |} path = Ok k.
Proof.
  intros Hres Hnd. revert Hres. unfold resolve_file, start_dir; simpl.
  destruct (string_eqb path ""); [done|].
  destruct (walk_dirs (nodes fs) _ _ _) as [cur|] eqn:Hwalk; [|done].
  now rewrite (walk_dirs_insert_file _ _ _ _ _ _ text Hnd Hwalk).
Qed.

(** What was written is what is read back. *)
Lemma read_after_write path text fs fs' :
  write_text path text fs = (Ok tt, fs') -> read_text path fs' = Ok text.
Proof.
  intros (k & Hres & Hnd & ->)%write_text_Ok_inv.
  pose proof (resolved_key_not_root _ _ _ Hres) as Hk.
  unfold read_text. rewrite (resolve_file_after_write _ _ _ text Hres Hnd). simpl.
  destruct k; [done|]. simpl. now rewrite lookup_insert_eq.
Qed.

(** ** The CSV reader inverts the CSV writer *)

Lemma append_assoc (a b c : string) : (a +:+ b) +:+ c = a +:+ (b +:+ c).
Proof.
  induction a as [|x a IH]; [done|].
  change (String x ((a +:+ b) +:+ c) = String x (a +:+ (b +:+ c))).
  now rewrite IH.
Qed.

Lemma push_prepend c s fields : push c (prepend s fields) = prepend (String c s) fields.
Proof. now destruct fields. Qed.

Lemma read_record_separator st t :
  at_separator t -> st <> InQuoted -> read_record st t = read_record FieldStart t.
Proof.
  intros (c & r & -> & Hc) Hst.
  destruct Hc as [-> | ->]; destruct st; done.
Qed.

Lemma read_record_nonempty st s : read_record st s <> [].
Proof.
  revert st. induction s as [|c r IH]; intros st; simpl; [done|].
  assert (Hpush : forall st', push c (read_record st' r) <> []).
  { intros st'. specialize (IH st'). now destruct (read_record st' r). }
  destruct st; repeat case_match; auto; done.
Qed.

Lemma append_empty_r (a : string) : a +:+ "" = a.
Proof.
  induction a as [|x a IH]; [done|].
  change (String x (a +:+ "") = String x a). now rewrite IH.
Qed.

Lemma prepend_fresh s fields : prepend s ("" :: fields) = s :: fields.
Proof. simpl. now rewrite append_empty_r. Qed.

Lemma prepend_nothing fields : fields <> [] -> prepend "" fields = fields.
Proof. now destruct fields. Qed.

Lemma mem_char_cons_false c d s :
  mem_char c (String d s) = false -> c <> d /\ mem_char c s = false.
Proof.
  simpl. intros [Hc Hs]%orb_false_elim. split; [|done].
  unfold ascii_eqb in Hc. now apply bool_decide_eq_false in Hc.
Qed.

(** A field written without quotes and without a carriage return is read
    back as it is. *)
Lemma read_unquoted_field s t :
  needs_quote s = false -> mem_char CR s = false -> at_separator t ->
  read_record InUnquoted (s +:+ t) = prepend s (read_record FieldStart t).
Proof.
  intros Hs Hcr Ht. induction s as [|c s IH].
  - simpl. rewrite read_record_separator by done.
    apply eq_sym, prepend_nothing, read_record_nonempty.
  - unfold needs_quote in Hs.
    apply orb_false_elim in Hs as [Hs Hlf].
    apply orb_false_elim in Hs as [Hcomma Hdq].
    apply mem_char_cons_false in Hcomma as [Hc1 Hcomma].
    apply mem_char_cons_false in Hdq as [Hc2 Hdq].
    apply mem_char_cons_false in Hlf as [Hc3 Hlf].
    apply mem_char_cons_false in Hcr as [Hc4 Hcr].
    assert (Hs' : needs_quote s = false).
    { unfold needs_quote. now rewrite Hcomma, Hdq, Hlf. }
    change (read_record InUnquoted (String c s +:+ t))
      with (if ascii_eqb c comma then EmptyString :: read_record FieldStart (s +:+ t)
            else if ascii_eqb c LF || ascii_eqb c CR then [EmptyString]
                 else push c (read_record InUnquoted (s +:+ t))).
    unfold ascii_eqb.
    rewrite (bool_decide_eq_false_2 (c = comma)) by congruence.
    rewrite (bool_decide_eq_false_2 (c = LF)) by congruence.
    rewrite (bool_decide_eq_false_2 (c = CR)) by congruence.
    simpl orb. cbv iota.
    rewrite (IH Hs' Hcr). apply push_prepend.
Qed.

(** A quoted field is read back without its quotes. *)
Lemma read_quoted_field s t :
  at_separator t ->
  read_record InQuoted (double_quotes s +:+ String dquote t) =
  prepend s (read_record FieldStart t).
Proof.
  intros Ht. induction s as [|c s IH]; simpl.
  - rewrite read_record_separator by done.
    apply eq_sym, prepend_nothing, read_record_nonempty.
  - unfold ascii_eqb. case_bool_decide as Hc.
    + subst c. simpl. rewrite IH. apply push_prepend.
    + simpl. unfold ascii_eqb. rewrite bool_decide_eq_false_2 by done.
      rewrite IH. apply push_prepend.
Qed.

(** A field that reads back, written either way, is read back as it is. *)
Lemma read_field f t :
  reads_back f = true -> at_separator t ->
  read_record FieldStart (csv_field f +:+ t) = prepend f (read_record FieldStart t).
Proof.
  intros Hf Ht. unfold csv_field. unfold reads_back in Hf.
  destruct (needs_quote f) eqn:Hq.
  - simpl. rewrite append_assoc. now apply read_quoted_field.
  - simpl in Hf. apply negb_true_iff in Hf.
    destruct f as [|c f].
    + simpl. apply eq_sym, prepend_nothing, read_record_nonempty.
    + pose proof (read_unquoted_field (String c f) t Hq Hf Ht) as Hu.
      unfold needs_quote in Hq.
      apply orb_false_elim in Hq as [Hq _].
      apply orb_false_elim in Hq as [_ Hdq].
      apply mem_char_cons_false in Hdq as [Hdq _].
      change (read_record FieldStart (String c f +:+ t))
        with (if ascii_eqb c dquote then read_record InQuoted (f +:+ t)
              else read_record InUnquoted (String c f +:+ t)).
      unfold ascii_eqb. rewrite (bool_decide_eq_false_2 (c = dquote)) by congruence.
      exact Hu.
Qed.

Lemma read_joined_fields fs rest :
  fs <> [] -> forallb reads_back fs = true ->
  read_record FieldStart (join_fields fs +:+ String LF rest) = fs.
Proof.
  induction fs as [|f [|f' fs] IH]; [done| |]; intros _ Hfs.
  - simpl in Hfs. apply andb_true_iff in Hfs as [Hf _].
    simpl. rewrite read_field by (done || (eexists _, _; eauto)).
    change (read_record FieldStart (String LF rest)) with [""].
    apply prepend_fresh.
  - change (forallb reads_back (f :: f' :: fs))
      with (reads_back f && forallb reads_back (f' :: fs)) in Hfs.
    apply andb_true_iff in Hfs as [Hf Hfs].
    change (join_fields (f :: f' :: fs))
      with (csv_field f +:+ "," +:+ join_fields (f' :: fs)).
    rewrite !append_assoc. rewrite read_field by (done || (eexists _, _; eauto)).
    change ("," +:+ join_fields (f' :: fs) +:+ String LF rest)
      with (String comma (join_fields (f' :: fs) +:+ String LF rest)).
    change (read_record FieldStart
              (String comma (join_fields (f' :: fs) +:+ String LF rest)))
      with ("" :: read_record FieldStart (join_fields (f' :: fs) +:+ String LF rest)).
    rewrite IH by done. apply prepend_fresh.
Qed.

(** A written field does not start with a line end, unless it is empty. *)
Lemma csv_field_start f t :
  reads_back f = true ->
  csv_field f +:+ t = t /\ f = "" \/
  exists c r, csv_field f +:+ t = String c r /\ c <> LF /\ c <> CR.
Proof.
  intros Hf. unfold csv_field, reads_back in *.
  destruct (needs_quote f) eqn:Hq.
  - right. eexists _, _. split; [reflexivity|]. split; discriminate.
  - simpl in Hf. apply negb_true_iff in Hf.
    destruct f as [|c f]; [now left|]. right. exists c, (f +:+ t).
    split; [reflexivity|].
    unfold needs_quote in Hq.
    apply orb_false_elim in Hq as [_ Hlf].
    apply mem_char_cons_false in Hlf as [Hlf _].
    apply mem_char_cons_false in Hf as [Hcr _].
    split; congruence.
Qed.

Lemma csv_header_starts c r :
  c <> LF -> c <> CR -> csv_header (String c r) = read_record FieldStart (String c r).
Proof.
  intros Hlf Hcr. unfold csv_header, ascii_eqb.
  rewrite (bool_decide_eq_false_2 (c = LF)) by done.
  now rewrite (bool_decide_eq_false_2 (c = CR)) by done.
Qed.

(** Reading the first record of a text that starts with a written record
    gives the fields that were written, when each of them reads back. *)
Lemma csv_header_csv_row fs rest :
  fs <> [] -> forallb reads_back fs = true ->
  csv_header (csv_row fs +:+ rest) = fs.
Proof.
  intros Hne Hfs. unfold csv_row. rewrite append_assoc.
  change (String LF "" +:+ rest) with (String LF rest).
  destruct fs as [|f fs]; [done|].
  assert (Hf : reads_back f = true).
  { simpl in Hfs. now apply andb_true_iff in Hfs as [Hf _]. }
  destruct f as [|c f].
  - destruct fs as [|f' fs]; [reflexivity|].
    change (join_fields ("" :: f' :: fs) +:+ String LF rest)
      with (String comma (join_fields (f' :: fs) +:+ String LF rest)).
    rewrite csv_header_starts by discriminate.
    change (String comma (join_fields (f' :: fs) +:+ String LF rest))
      with (join_fields ("" :: f' :: fs) +:+ String LF rest).
    now apply read_joined_fields.
  - assert (Hjoin : exists t, join_fields (String c f :: fs) +:+ String LF rest =
                              csv_field (String c f) +:+ t).
    { destruct fs as [|f' fs]; [now eexists|].
      change (join_fields (String c f :: f' :: fs))
        with (csv_field (String c f) +:+ "," +:+ join_fields (f' :: fs)).
      rewrite append_assoc. now eexists. }
    destruct Hjoin as [t Ht].
    destruct (csv_field_start (String c f) t Hf) as [[_ He]|(c0 & r0 & Hstart & Hlf & Hcr)];
      [done|].
    replace (match fs with
             | [] => join_fields (String c f :: fs)
             | _ :: _ => join_fields (String c f :: fs)
             end) with (join_fields (String c f :: fs)) by now destruct fs.
    rewrite Ht, Hstart. rewrite csv_header_starts by done.
    rewrite <- Hstart, <- Ht. now apply read_joined_fields.
Qed.

(** The first field of a written record that does not start with an empty
    field is read back, whatever the other fields hold. *)
Lemma csv_header_first f fs rest :
  f <> "" -> reads_back f = true ->
  hd_error (csv_header (csv_row (f :: fs) +:+ rest)) = Some f.
Proof.
  intros Hne Hf.
  assert (Hsplit : exists t, csv_row (f :: fs) +:+ rest = csv_field f +:+ t /\
                             at_separator t).
  { unfold csv_row. rewrite append_assoc.
    change (String LF "" +:+ rest) with (String LF rest).
    destruct f as [|c f]; [done|].
    destruct fs as [|f' fs].
    - eexists. split; [reflexivity|]. eexists _, _; eauto.
    - change (join_fields (String c f :: f' :: fs))
        with (csv_field (String c f) +:+ "," +:+ join_fields (f' :: fs)).
      rewrite !append_assoc. eexists. split; [reflexivity|]. eexists _, _.
      split; [reflexivity|now left]. }
  destruct Hsplit as (t & -> & Ht).
  destruct (csv_field_start f t Hf) as [[_ He]|(c0 & r0 & Hstart & Hlf & Hcr)]; [done|].
  rewrite Hstart, csv_header_starts by done. rewrite <- Hstart.
  rewrite read_field by done.
  destruct Ht as (c & r & -> & [-> | ->]); simpl; now rewrite append_empty_r.
Qed.

(** ** Export *)

Section ExportFailure.
Context {V : Type} `{!Pandas V} `{!Databento V} `{!PyStrExn}.

Lemma save_handler (e : exn) (w : world) :
  (_ ← logger_error ("Error saving data to CSV: " +:+ str_exn e); raise e : M unit) w =
  (Raise e, logged [save_error_record e] w).
Proof. reflexivity. Qed.

Lemma with_fs_run op w o fs' :
  op (w_fs w) = (o, fs') -> with_fs op w = (o, with_files fs' w).
Proof. intros Hop. unfold with_fs. now rewrite Hop. Qed.


(** [save_to_csv] when the directory creation raises. *)
Lemma save_to_csv_makedirs_Raise self (df : DataFrame V) filepath w e fs1 :
  os_makedirs_exist_ok (dirname filepath) (w_fs w) = (Raise e, fs1) ->
  save_to_csv self df filepath w =
  (Raise e, logged [save_error_record e] (with_files fs1 w)).
Proof.
  intros Hm. unfold save_to_csv.
  erewrite try_Raise;
    [|erewrite bind_Raise; [reflexivity|exact (with_fs_run _ _ _ _ Hm)]].
  rewrite (os_makedirs_error_is_Exception _ _ _ _ Hm). apply save_handler.
Qed.

(** [save_to_csv] once the directory exists and the frame is ready. *)
Lemma save_to_csv_after_makedirs self (df : DataFrame V) filepath w fs1 d :
  os_makedirs_exist_ok (dirname filepath) (w_fs w) = (Ok tt, fs1) ->
  frame_to_save df = Ok d ->
  save_to_csv self df filepath w =
  match write_text filepath (to_csv_no_index d) fs1 with
  | (Ok _, fs2) =>
      (Ok tt, logged [(INFO, "Data saved to " +:+ filepath)] (with_files fs2 w))
  | (Raise e, fs2) => (Raise e, logged [save_error_record e] (with_files fs2 w))
  end.
Proof.
  intros Hm Hd. unfold frame_to_save in Hd.
  destruct (reset_index df) as [d0|] eqn:Hr; [|done].
  unfold save_to_csv.
  destruct (write_text filepath (to_csv_no_index d) fs1) as [[[]|e] fs2] eqn:Hw.
  - erewrite try_Ok; [reflexivity|].
    erewrite bind_Ok; [|exact (with_fs_run _ _ _ _ Hm)].
    rewrite (bind_lift_Ok _ _ _ d0) by done.
    rewrite (bind_lift_Ok _ _ _ d) by done.
    erewrite bind_Ok; [reflexivity|].
    unfold to_csv_file. exact (with_fs_run _ (with_files fs1 w) _ _ Hw).
  - erewrite try_Raise.
    2: { erewrite bind_Ok; [|exact (with_fs_run _ _ _ _ Hm)].
         rewrite (bind_lift_Ok _ _ _ d0) by done.
         rewrite (bind_lift_Ok _ _ _ d) by done.
         erewrite bind_Raise; [reflexivity|].
         unfold to_csv_file. exact (with_fs_run _ (with_files fs1 w) _ _ Hw). }
    destruct (write_text_Raise _ _ _ _ _ Hw) as [-> _]. apply save_handler.
Qed.

(** C5 (as amended).  When the directory creation or the file write of an
    export fails with [e], [save_to_csv] appends one error record made of a
    fixed prefix and [str(e)] to the log and raises [e] itself, not an
    exception that wraps it; directories created before a failed write
    remain. *)
Theorem save_to_csv_reraises_os_error
        (self : NQDataFetcher) (df : DataFrame V) (filepath : string)
        (w : world) (e : exn) (fs' : filesystem) :
  export_failure df filepath (w_fs w) e fs' ->
  save_to_csv self df filepath w =
    (Raise e, logged [save_error_record e] (with_files fs' w)) /\
  ~ surfaces_wrapped "ExportError" (save_to_csv self df filepath w) e.
Proof.
  intros Hf.
  assert (Hrun : save_to_csv self df filepath w =
                 (Raise e, logged [save_error_record e] (with_files fs' w))).
  { destruct Hf as [e fs1 Hm | e fs1 d fs2 Hm Hd Hw].
    - now apply save_to_csv_makedirs_Raise.
    - rewrite (save_to_csv_after_makedirs _ _ _ _ _ _ Hm Hd). now rewrite Hw. }
  split; [exact Hrun|].
  apply reraised_not_wrapped. now rewrite Hrun.
Qed.

End ExportFailure.

(** ** The exported file *)

Section ExportShape.
Context {V : Type} `{!Pandas V} `{!Databento V} `{!PyStrExn}.

(** A successful export made the directory, prepared the frame and wrote it. *)
Lemma save_to_csv_Ok_inv self (df : DataFrame V) filepath w w' :
  save_to_csv self df filepath w = (Ok tt, w') ->
  exists fs1 d fs2,
    os_makedirs_exist_ok (dirname filepath) (w_fs w) = (Ok tt, fs1) /\
    frame_to_save df = Ok d /\
    write_text filepath (to_csv_no_index d) fs1 = (Ok tt, fs2) /\
    w' = logged [(INFO, "Data saved to " +:+ filepath)] (with_files fs2 w).
Proof.
  intros Hs.
  destruct (os_makedirs_exist_ok (dirname filepath) (w_fs w)) as [[[]|e] fs1] eqn:Hm.
  2: { rewrite (save_to_csv_makedirs_Raise _ _ _ _ _ _ Hm) in Hs. done. }
  destruct (frame_to_save df) as [d|e] eqn:Hd.
  - rewrite (save_to_csv_after_makedirs _ _ _ _ _ _ Hm Hd) in Hs.
    destruct (write_text filepath (to_csv_no_index d) fs1) as [[[]|e] fs2] eqn:Hw; [|done].
    injection Hs as <-. now exists fs1, d, fs2.
  - apply try_Ok_inv in Hs; [|intros e0 w0; now eexists _, _].
    erewrite bind_Ok in Hs; [|exact (with_fs_run _ _ _ _ Hm)].
    unfold frame_to_save in Hd.
    destruct (reset_index df) as [d0|e0] eqn:Hr.
    + rewrite (bind_lift_Ok _ _ _ d0) in Hs by done.
      rewrite (bind_lift_Raise _ _ _ e) in Hs by done. done.
    + rewrite (bind_lift_Raise _ _ _ e0) in Hs by done. done.
Qed.

Lemma rename_absent (old new : string) (cols : list (string * list V)) :
  existsb (has_label old) cols = false ->
  map (fun c => (if string_eqb c.1 old then new else c.1, c.2)) cols = cols.
Proof.
  induction cols as [|[l vs] cols IH]; simpl; [done|].
  intros [Hl Hc]%orb_false_elim. unfold has_label in Hl; simpl in Hl.
  rewrite Hl, (IH Hc). reflexivity.
Qed.

(** The frame written for a frame indexed by [ts_event]: the index comes
    first, under the label [timestamp], then the columns as they are. *)
Lemma frame_to_save_ts_event (df d : DataFrame V) :
  index_name df = Some "ts_event" ->
  frame_to_save df = Ok d ->
  columns d = ("timestamp", index df) :: columns df /\ len d = len df.
Proof.
  intros Hn. unfold frame_to_save, reset_index, reset_index_label. rewrite Hn.
  destruct (in_columns "ts_event" df) eqn:Hin; [done|].
  unfold publish_timestamp; simpl. intros [= <-]. simpl. split.
  - f_equal. now apply rename_absent.
  - unfold len; simpl. now rewrite length_fmap, length_seq.
Qed.

(** C3.  A successful export of a frame whose index is named [ts_event]
    leaves at the file path a comma-delimited text whose first record is
    the header [timestamp] followed by the labels of the frame's columns in
    their order, and whose other records are the rows, index value first.
    Read back, the header starts with [timestamp]; it gives the labels, all
    of them and in their order, when every label is one the reader gives
    back as written: a label that is written quoted, or one without a
    carriage return. *)
Theorem save_to_csv_timestamp_header
        (self : NQDataFetcher) (df : DataFrame V) (filepath : string) (w w' : world) :
  index_name df = Some "ts_event" ->
  save_to_csv self df filepath w = (Ok tt, w') ->
  exists text,
    read_text filepath (w_fs w') = Ok text /\
    text = csv_row ("timestamp" :: labels df) +:+ csv_text (data_rows_with_index df) /\
    hd_error (csv_header text) = Some "timestamp" /\
    (forallb reads_back (labels df) = true ->
     csv_header text = "timestamp" :: labels df).
Proof.
  intros Hn Hs.
  destruct (save_to_csv_Ok_inv _ _ _ _ _ Hs) as (fs1 & d & fs2 & Hm & Hd & Hw & ->).
  destruct (frame_to_save_ts_event _ _ Hn Hd) as [Hcols Hlen].
  eexists. split; [|split; [reflexivity|split]].
  - simpl. rewrite (read_after_write _ _ _ _ Hw). f_equal.
    unfold to_csv_no_index, data_rows, data_rows_with_index, labels.
    rewrite Hlen, Hcols. reflexivity.
  - now apply csv_header_first.
  - intros Hls. apply csv_header_csv_row; [done|]. simpl. exact Hls.
Qed.
End ExportShape.

(** ** Column selection *)

Section Selection.
Context {V : Type}.
Implicit Types (cols : list (string * list V)) (keys : list string).

Lemma existsb_has_label l cols :
  existsb (has_label l) cols = true <-> l ∈ cols.*1.
Proof.
  rewrite existsb_exists, list_elem_of_fmap. unfold has_label, string_eqb.
  split.
  - intros ([l' vs] & Hin%list_elem_of_In & Heq%bool_decide_eq_true). eauto.
  - intros ([l' vs] & -> & Hin%list_elem_of_In). exists (l', vs).
    split; [done|]. now apply bool_decide_eq_true.
Qed.

Lemma in_columns_labels l (df : @DataFrame V) :
  in_columns l df = true <-> l ∈ labels df.
Proof. apply existsb_has_label. Qed.

Lemma filter_label_absent l cols :
  existsb (has_label l) cols = false -> filter (fun c => c.1 <> l) cols = cols.
Proof.
  induction cols as [|[l' vs] cols IH]; simpl; [done|].
  intros [Hl Hc]%orb_false_elim.
  unfold has_label, string_eqb in Hl; simpl in Hl. apply bool_decide_eq_false in Hl.
  rewrite filter_cons_True by done. now rewrite (IH Hc).
Qed.

Lemma filter_label_none l cols :
  existsb (has_label l) cols = false -> filter (fun c => c.1 = l) cols = [].
Proof.
  induction cols as [|[l' vs] cols IH]; simpl; [done|].
  intros [Hl Hc]%orb_false_elim.
  unfold has_label, string_eqb in Hl; simpl in Hl. apply bool_decide_eq_false in Hl.
  rewrite filter_cons_False by done. now apply IH.
Qed.

(** Dropping the columns labelled [x] does not change the selection of
    other labels. *)
Lemma filter_label_drop_other x k cols :
  k <> x ->
  filter (fun c => c.1 = k) (filter (fun c => c.1 <> x) cols) =
  filter (fun c => c.1 = k) cols.
Proof.
  intros Hk. induction cols as [|[l vs] cols IH]; [done|].
  destruct (decide (l = x)) as [->|Hl].
  - rewrite (filter_cons_False (fun c => c.1 <> x)) by (simpl; tauto).
    rewrite (filter_cons_False (fun c => c.1 = k)) by (simpl; congruence).
    exact IH.
  - rewrite (filter_cons_True (fun c => c.1 <> x)) by done.
    destruct (decide (l = k)) as [->|Hlk].
    + rewrite !(filter_cons_True (fun c => c.1 = k)) by done. now rewrite IH.
    + rewrite !(filter_cons_False (fun c => c.1 = k)) by done. exact IH.
Qed.

Lemma select_drop_other x keys cols :
  x ∉ keys -> select keys (filter (fun c => c.1 <> x) cols) = select keys cols.
Proof.
  unfold select. induction keys as [|k keys IH]; simpl; [done|].
  intros [Hk Hx]%not_elem_of_cons.
  rewrite filter_label_drop_other by done. now rewrite IH.
Qed.

(** Every selected column carries one of the keys. *)
Lemma select_labels_sound keys cols l : l ∈ (select keys cols).*1 -> l ∈ keys.
Proof.
  unfold select. induction keys as [|k keys IH]; simpl; [done|].
  rewrite fmap_app, elem_of_app. intros [Hl|Hl].
  - apply list_elem_of_fmap in Hl as ([l' vs] & -> & [Heq _]%list_elem_of_filter).
    simpl in Heq. subst. apply list_elem_of_here.
  - apply list_elem_of_further, IH, Hl.
Qed.

(** A key that labels a column is the label of a selected column. *)
Lemma select_labels_complete keys cols k :
  k ∈ keys -> k ∈ cols.*1 -> k ∈ (select keys cols).*1.
Proof.
  unfold select. intros Hk Hc.
  apply list_elem_of_fmap in Hc as ([l vs] & -> & Hin).
  apply list_elem_of_fmap. exists (l, vs). split; [done|].
  apply list_elem_of_In, in_flat_map. exists l. split; [now apply list_elem_of_In|].
  apply list_elem_of_In, list_elem_of_filter. done.
Qed.

(** Every selected column is a column of the table, values included. *)
Lemma select_columns_sound keys cols c : c ∈ select keys cols -> c ∈ cols /\ c.1 ∈ keys.
Proof.
  unfold select. intros Hc%list_elem_of_In%in_flat_map.
  destruct Hc as (k & Hk%list_elem_of_In & [Heq Hin]%list_elem_of_In%list_elem_of_filter).
  subst k. done.
Qed.

(** With distinct labels a label selects at most one column. *)
Lemma filter_label_NoDup k cols :
  NoDup cols.*1 -> k ∈ cols.*1 ->
  exists vs, filter (fun c => c.1 = k) cols = [(k, vs)].
Proof.
  induction cols as [|[l vs] cols IH]; simpl.
  - intros _ Hk. now apply elem_of_nil in Hk.
  - intros [Hl Hnd]%NoDup_cons Hk.
    destruct (decide (l = k)) as [->|Hlk].
    + exists vs. rewrite filter_cons_True by done. f_equal.
      clear IH Hk Hnd. induction cols as [|[l' vs'] cols IH]; [done|].
      simpl in Hl. apply not_elem_of_cons in Hl as [Hne Hl].
      rewrite filter_cons_False by (simpl; congruence). now apply IH.
    + rewrite filter_cons_False by done. apply IH; [done|].
      apply elem_of_cons in Hk as [Hk|Hk]; [congruence|done].
Qed.

Lemma select_labels_NoDup keys cols :
  NoDup cols.*1 -> (forall k, k ∈ keys -> k ∈ cols.*1) ->
  (select keys cols).*1 = keys.
Proof.
  intros Hnd. unfold select. induction keys as [|k keys IH]; simpl; [done|].
  intros Hall. rewrite fmap_app.
  destruct (filter_label_NoDup k cols Hnd) as [vs ->].
  - apply Hall, list_elem_of_here.
  - simpl. f_equal. apply IH. intros k' Hk'. now apply Hall, list_elem_of_further.
Qed.

(** [df[keys]] succeeds exactly when every key labels a column. *)
Lemma getitem_list_Ok keys (df d : @DataFrame V) :
  getitem_list keys df = Ok d ->
  (forall k, k ∈ keys -> k ∈ labels df) /\
  d = {| index_name := index_name df; index := index df;
         columns := select keys (columns df) |}.
Proof.
  unfold getitem_list.
  destruct (filter _ keys) as [|m ms] eqn:Hf; [|done].
  intros [= <-]. split; [|done].
  intros k Hk. apply in_columns_labels.
  destruct (in_columns k df) eqn:Hin; [done|].
  assert (Hm : k ∈ filter (fun k => negb (in_columns k df)) keys).
  { apply list_elem_of_filter. split; [now rewrite Hin|done]. }
  rewrite Hf in Hm. now apply elem_of_nil in Hm.
Qed.

Lemma getitem_list_Raise keys (df : @DataFrame V) k :
  k ∈ keys -> k ∉ labels df ->
  getitem_list keys df = Raise (KeyError (filter (fun k => negb (in_columns k df)) keys)).
Proof.
  intros Hk Hn. unfold getitem_list.
  destruct (filter _ keys) as [|m ms] eqn:Hf; [|done].
  assert (Hm : k ∈ filter (fun k => negb (in_columns k df)) keys).
  { apply list_elem_of_filter. split; [|done].
    destruct (in_columns k df) eqn:Hin; [|done].
    now apply in_columns_labels in Hin. }
  rewrite Hf in Hm. now apply elem_of_nil in Hm.
Qed.
End Selection.

(** ** The shape of fetched tables *)

Section FetchShape.
Context {V : Type} `{!Pandas V} `{!Databento V} `{!PyStrExn}.

Lemma fetch_handler_raises (op : fetch_op) :
  forall e w1, exists e' w2,
    (_ ← logger_error (error_message op e); raise e : M (DataFrame V)) w1 = (Raise e', w2).
Proof. intros e w1. now eexists _, _. Qed.

(** A successful [fetch_data] went through every step of the body. *)
Lemma fetch_data_Ok_inv self s e w (df : DataFrame V) w' :
  fetch_data self s e w = (Ok df, w') ->
  exists t t1 t2,
    vendor_table self SCHEMA s e = Ok t /\
    promote_ts_event t = Ok t1 /\
    getitem_list keep_cols t1 = Ok t2 /\
    parse_index t2 = Ok df /\
    w' = logged [(INFO, start_message Bars s e); (INFO, success_message Bars df)] w.
Proof.
  intros Hf. apply try_Ok_inv in Hf; [|apply (fetch_handler_raises Bars)].
  unfold logger_info in Hf. rewrite bind_log in Hf. cbv zeta in Hf.
  destruct (vendor_table self SCHEMA s e) as [t|x] eqn:Ht.
  2: { now rewrite (vendor_table_Raise _ _ _ _ _ Ht) in Hf. }
  rewrite (vendor_table_Ok _ _ _ _ _ Ht) in Hf.
  destruct (promote_ts_event t) as [t1|x] eqn:H1.
  2: { now rewrite (bind_lift_Raise _ _ _ x) in Hf. }
  rewrite (bind_lift_Ok _ _ _ t1) in Hf by done.
  destruct (getitem_list keep_cols t1) as [t2|x] eqn:H2.
  2: { now rewrite (bind_lift_Raise _ _ _ x) in Hf. }
  rewrite (bind_lift_Ok _ _ _ t2) in Hf by done.
  destruct (parse_index t2) as [t3|x] eqn:H3.
  2: { now rewrite (bind_lift_Raise _ _ _ x) in Hf. }
  rewrite (bind_lift_Ok _ _ _ t3) in Hf by done.
  rewrite bind_log in Hf. injection Hf as <- <-.
  exists t, t1, t2. rewrite logged_app. done.
Qed.


(** Promotion never fails: the table gets the index [event_index] and
    loses every column labelled [ts_event]. *)
Lemma promote_ts_event_total (t : DataFrame V) :
  promote_ts_event t =
  Ok {| index_name := (event_index t).1;
        index := (event_index t).2;
        columns := filter (fun c => c.1 <> "ts_event") (columns t) |}.
Proof.
  unfold promote_ts_event, event_index, set_index.
  destruct (in_columns "ts_event" t) eqn:Hin.
  - destruct (filter (fun c => c.1 = "ts_event") (columns t)) as [|c [|c' cs]] eqn:Hf;
      [|reflexivity..].
    apply in_columns_labels, list_elem_of_fmap in Hin as ([l vs] & Hl & Hc).
    simpl in Hl. subst l.
    assert (Hm : ("ts_event", vs) ∈ filter (fun c => c.1 = "ts_event") (columns t))
      by now apply list_elem_of_filter.
    rewrite Hf in Hm. now apply elem_of_nil in Hm.
  - rewrite (filter_label_none _ _ Hin), (filter_label_absent _ _ Hin).
    now destruct t.
Qed.

(** What promotion does to a table. *)
Lemma promote_ts_event_Ok (t t1 : DataFrame V) :
  promote_ts_event t = Ok t1 ->
  columns t1 = filter (fun c => c.1 <> "ts_event") (columns t) /\
  index_name t1 = (event_index t).1 /\
  index t1 = (event_index t).2.
Proof. rewrite promote_ts_event_total. now intros [= <-]. Qed.

Lemma parse_index_Ok (t df : DataFrame V) :
  parse_index t = Ok df ->
  index_name df = index_name t /\ columns df = columns t /\
  pd_to_datetime (index t) = Ok (index df).
Proof.
  unfold parse_index, assign_index.
  destruct (pd_to_datetime (index t)) as [idx|]; [|done].
  destruct (length idx =? len t)%nat; [|done].
  now intros [= <-].
Qed.

(** The index a fetch parses, for a table with one [ts_event] column and
    for a table without one. *)
Lemma event_index_single (t : DataFrame V) vs :
  labelled "ts_event" t = [("ts_event", vs)] -> event_index t = (Some "ts_event", vs).
Proof. unfold labelled, event_index. now intros ->. Qed.

Lemma event_index_absent (t : DataFrame V) :
  in_columns "ts_event" t = false -> event_index t = (index_name t, index t).
Proof. intros Hin. unfold event_index. now rewrite (filter_label_none _ _ Hin). Qed.

(** With at most one column per key, the selection is labelled by the keys
    that label a column. *)
Lemma select_labels_unrepeated keys (t : DataFrame V) :
  (forall k, k ∈ keys -> unrepeated k t) ->
  (forall k, k ∈ keys -> k ∈ labels t) ->
  (select keys (columns t)).*1 = keys.
Proof.
  unfold select, unrepeated, labelled.
  induction keys as [|k keys IH]; simpl; [done|]. intros Hone Hall.
  rewrite fmap_app. rewrite IH.
  2: { intros k' Hk'. now apply Hone, list_elem_of_further. }
  2: { intros k' Hk'. now apply Hall, list_elem_of_further. }
  specialize (Hone k (list_elem_of_here _ _)).
  specialize (Hall k (list_elem_of_here _ _)).
  apply list_elem_of_fmap in Hall as ([l vs] & Hl & Hc). simpl in Hl. subst l.
  assert (Hm : (k, vs) ∈ filter (fun c => c.1 = k) (columns t))
    by now apply list_elem_of_filter.
  destruct (filter (fun c => c.1 = k) (columns t)) as [|c [|c' cs]] eqn:Hf.
  - now apply elem_of_nil in Hm.
  - apply list_elem_of_singleton in Hm as <-. reflexivity.
  - simpl in Hone. lia.
Qed.

Lemma ts_event_not_kept : "ts_event" ∉ keep_cols.
Proof.
  unfold keep_cols. intros Hin.
  repeat (apply elem_of_cons in Hin as [Hin|Hin]; [discriminate|]).
  now apply elem_of_nil in Hin.
Qed.

(** C2.  A successful [fetch_data] returns the columns of the vendor table
    labelled [open], [high], [low], [close], [volume], key by key and with
    their values, and no other column: the label set is exactly these five.
    The label list is exactly these five, in that order, when none of them
    labels two columns of the vendor table.  The index is [event_index] of
    the vendor table, parsed: the parsed [ts_event] column, under that
    name, when the vendor table has exactly one such column; when it has
    none, the vendor's own index, parsed, under the vendor's name for it. *)
Theorem fetch_data_ohlcv_shape
        (self : NQDataFetcher) (start_time end_time : datetime)
        (w w' : world) (df : DataFrame V) :
  fetch_data self start_time end_time w = (Ok df, w') ->
  exists t,
    vendor_table self SCHEMA start_time end_time = Ok t /\
    columns df = select keep_cols (columns t) /\
    (forall l, l ∈ labels df <-> l ∈ keep_cols) /\
    (forall c, c ∈ columns t -> c.1 ∉ keep_cols -> c ∉ columns df) /\
    ((forall k, k ∈ keep_cols -> unrepeated k t) ->
     labels df = ["open"; "high"; "low"; "close"; "volume"]) /\
    index_name df = (event_index t).1 /\
    pd_to_datetime (event_index t).2 = Ok (index df) /\
    (forall vs, labelled "ts_event" t = [("ts_event", vs)] ->
                index_name df = Some "ts_event" /\ pd_to_datetime vs = Ok (index df)) /\
    (in_columns "ts_event" t = false ->
     index_name df = index_name t /\ pd_to_datetime (index t) = Ok (index df)).
Proof.
  intros Hf.
  destruct (fetch_data_Ok_inv _ _ _ _ _ _ Hf) as (t & t1 & t2 & Ht & H1 & H2 & H3 & _).
  exists t. split; [exact Ht|].
  destruct (promote_ts_event_Ok _ _ H1) as (Hc1 & Hn1 & Hi1).
  destruct (getitem_list_Ok _ _ _ H2) as [Hall ->].
  destruct (parse_index_Ok _ _ H3) as (Hn & Hc & Hi).
  cbn [index_name index columns] in Hn, Hc, Hi.
  assert (Hcols : columns df = select keep_cols (columns t)).
  { rewrite Hc, Hc1. apply select_drop_other, ts_event_not_kept. }
  assert (Hall' : forall k, k ∈ keep_cols -> k ∈ labels t).
  { intros k Hk. specialize (Hall k Hk). unfold labels in *. rewrite Hc1 in Hall.
    apply list_elem_of_fmap in Hall as (c & -> & [_ Hin]%list_elem_of_filter).
    apply list_elem_of_fmap. eauto. }
  split; [exact Hcols|]. split; [|split; [|split; [|split; [|split; [|split]]]]].
  - intros l. unfold labels. rewrite Hcols. split.
    + apply select_labels_sound.
    + intros Hl. apply select_labels_complete; [done|]. now apply Hall'.
  - intros c _ Hnk Hin. rewrite Hcols in Hin.
    now apply select_columns_sound in Hin as [_ Hk].
  - intros Hone. unfold labels. rewrite Hcols.
    now apply select_labels_unrepeated.
  - congruence.
  - congruence.
  - intros vs Hvs. rewrite (event_index_single _ _ Hvs) in Hn1, Hi1.
    simpl in Hn1, Hi1. split; congruence.
  - intros Hin. rewrite (event_index_absent _ Hin) in Hn1, Hi1.
    simpl in Hn1, Hi1. split; congruence.
Qed.

End FetchShape.

(** ** Missing OHLCV columns *)

Section MissingColumns.
Context {V : Type} `{!Pandas V} `{!Databento V} `{!PyStrExn}.

Lemma set_index_error_is_Exception l (t : DataFrame V) x :
  set_index l t = Raise x -> exc_is_Exception x = true.
Proof.
  unfold set_index. destruct (filter _ _) as [|c [|c' cs]]; [|done|]; now intros [= <-].
Qed.

(** [fetch_data] when a step after the vendor call raises an [Exception]. *)
Lemma fetch_data_step_Raise self s e w (t : DataFrame V) x :
  vendor_table self SCHEMA s e = Ok t ->
  exc_is_Exception x = true ->
  promote_ts_event t = Raise x \/
  (exists t1, promote_ts_event t = Ok t1 /\ getitem_list keep_cols t1 = Raise x) ->
  fetch_data self s e w = (Raise x, logged (failure_records Bars s e x) w).
Proof.
  intros Ht Hx Hstep. unfold fetch_data, failure_records.
  erewrite try_Raise.
  2: { unfold logger_info. rewrite bind_log. cbv zeta.
       rewrite (vendor_table_Ok _ _ _ _ _ Ht).
       destruct Hstep as [H1 | (t1 & H1 & H2)].
       - now rewrite (bind_lift_Raise _ _ _ x).
       - rewrite (bind_lift_Ok _ _ _ t1) by done.
         now rewrite (bind_lift_Raise _ _ _ x). }
  rewrite Hx. etrans; [exact (fetch_handler Bars x _)|]. now rewrite logged_app.
Qed.

Lemma promoted_labels_kept (t t1 : DataFrame V) k :
  promote_ts_event t = Ok t1 -> k ∈ keep_cols ->
  in_columns k t1 = in_columns k t.
Proof.
  intros [Hc _]%promote_ts_event_Ok Hk.
  assert (Hne : k <> "ts_event") by (intros ->; now apply ts_event_not_kept).
  unfold in_columns. rewrite Hc. clear Hc.
  induction (columns t) as [|[l vs] cols IH]; [done|].
  destruct (decide (l = "ts_event")) as [->|Hl].
  - rewrite filter_cons_False by (simpl; tauto). simpl. rewrite <- IH.
    unfold has_label at 2, string_eqb; simpl.
    rewrite bool_decide_eq_false_2 by congruence. reflexivity.
  - rewrite filter_cons_True by done. simpl. now rewrite IH.
Qed.

Lemma filter_ext_elem {A} (P Q : A -> Prop)
      `{!forall x, Decision (P x)} `{!forall x, Decision (Q x)} (l : list A) :
  (forall x, x ∈ l -> (P x <-> Q x)) -> filter P l = filter Q l.
Proof.
  induction l as [|a l IH]; [done|]. intros Hpq.
  assert (IH' : filter P l = filter Q l).
  { apply IH. intros x Hx. now apply Hpq, list_elem_of_further. }
  destruct (decide (P a)) as [Hp|Hp].
  - rewrite !filter_cons_True; [now rewrite IH'|apply Hpq; [apply list_elem_of_here|done]|done].
  - rewrite !filter_cons_False; [done| |done].
    intros Hq. apply Hp, Hpq; [apply list_elem_of_here|done].
Qed.

Lemma missing_after_promotion (t t1 : DataFrame V) :
  promote_ts_event t = Ok t1 ->
  filter (fun k => negb (in_columns k t1)) keep_cols =
  filter (fun k => negb (in_columns k t)) keep_cols.
Proof.
  intros H1. apply filter_ext_elem.
  intros k Hk. now rewrite (promoted_labels_kept _ _ _ H1 Hk).
Qed.

(** C10.  [fetch_data] succeeds only on a vendor table that carries all of
    [open], [high], [low], [close] and [volume].  When one of them is
    missing the operation raises, after the error record: the [KeyError] of
    the column selection, naming the missing labels, unless promoting
    [ts_event] has already failed.  A vendor table without columns, as an
    empty result may be, gives the [KeyError] naming all five. *)
Theorem fetch_data_requires_ohlcv_columns
        (self : NQDataFetcher) (start_time end_time : datetime)
        (w : world) (t : DataFrame V) :
  vendor_table self SCHEMA start_time end_time = Ok t ->
  (forall df w', fetch_data self start_time end_time w = (Ok df, w') ->
                 forall k, k ∈ keep_cols -> k ∈ labels t) /\
  ((exists k, k ∈ keep_cols /\ k ∉ labels t) ->
   exists x,
     fetch_data self start_time end_time w =
       (Raise x, logged (failure_records Bars start_time end_time x) w) /\
     exc_is_Exception x = true /\
     (forall t1, promote_ts_event t = Ok t1 ->
                 x = KeyError (filter (fun k => negb (in_columns k t)) keep_cols)) /\
     (columns t = [] -> x = KeyError keep_cols)).
Proof.
  intros Ht. split.
  - intros df w' Hf k Hk.
    destruct (fetch_data_Ok_inv _ _ _ _ _ _ Hf) as (t' & t1 & t2 & Ht' & H1 & H2 & _).
    assert (t' = t) by congruence. subst t'.
    destruct (getitem_list_Ok _ _ _ H2) as [Hall _].
    apply in_columns_labels. rewrite <- (promoted_labels_kept _ _ _ H1 Hk).
    apply in_columns_labels. now apply Hall.
  - intros (k & Hk & Hn).
    destruct (promote_ts_event t) as [t1|x] eqn:H1.
    + assert (Hn1 : k ∉ labels t1).
      { intros Hin%in_columns_labels. rewrite (promoted_labels_kept _ _ _ H1 Hk) in Hin.
        now apply in_columns_labels in Hin. }
      pose proof (getitem_list_Raise _ _ _ Hk Hn1) as H2.
      rewrite (missing_after_promotion _ _ H1) in H2.
      exists (KeyError (filter (fun k => negb (in_columns k t)) keep_cols)).
      split; [|split; [|split]].
      * apply (fetch_data_step_Raise _ _ _ _ _ _ Ht); [reflexivity|].
        right. exists t1. split; [exact H1|exact H2].
      * reflexivity.
      * reflexivity.
      * intros Hc. unfold in_columns. rewrite Hc. reflexivity.
    + assert (Hx : exc_is_Exception x = true).
      { unfold promote_ts_event in H1. destruct (in_columns "ts_event" t); [|done].
        now apply set_index_error_is_Exception in H1. }
      exists x. split; [|split; [|split]].
      * apply (fetch_data_step_Raise _ _ _ _ _ _ Ht Hx). now left.
      * exact Hx.
      * done.
      * intros Hc. unfold promote_ts_event, in_columns in H1. now rewrite Hc in H1.
Qed.
End MissingColumns.

(** ** Batch mode *)

Section Batch.
Context {V : Type} `{!Pandas V} `{!Databento V} `{!PyStrExn}.

Lemma init_Ok c w :
  Historical API_KEY = Ok c ->
  NQDataFetcher_init w = (Ok {| client := c |}, logged [init_record] w).
Proof.
  intros Hc. unfold NQDataFetcher_init.
  now rewrite (bind_lift_Ok _ _ _ c).
Qed.

(** C6.  In batch mode, when the client is constructed and the fetch returns
    a table without rows, the process prints the no-data line, leaves the
    file system as it found it (no file is written) and ends with exit
    status 0. *)
Theorem batch_empty_result_exits_zero
        (w w2 : world) (c : Client) (df : DataFrame V) :
  Historical API_KEY = Ok c ->
  fetch_data {| client := c |} DEFAULT_START_TIME DEFAULT_END_TIME
             (logged [init_record] w) = (Ok df, w2) ->
  len df = 0 ->
  batch_process w =
    (0%Z, {| w_log := w_log w2;
             w_stdout := w_stdout w ++ [no_data_line];
             w_fs := w_fs w |}) /\
  read_text OUTPUT_FILE (w_fs (batch_process w).2) = read_text OUTPUT_FILE (w_fs w).
Proof.
  intros Hc Hf Hlen.
  destruct (fetch_data_Ok_inv _ _ _ _ _ _ Hf) as (_ & _ & _ & _ & _ & _ & _ & Hw2).
  assert (Hb : batch_process w =
               (0%Z, {| w_log := w_log w2;
                        w_stdout := w_stdout w ++ [no_data_line];
                        w_fs := w_fs w |})).
  { unfold batch_process, run_cli.
    erewrite try_Ok; [reflexivity|].
    erewrite bind_Ok; [|exact (init_Ok _ _ Hc)].
    erewrite bind_Ok; [|exact Hf].
    rewrite Hlen. simpl. unfold print. now rewrite Hw2. }
  split; [exact Hb|]. now rewrite Hb.
Qed.
End Batch.

(** ** The download of the interactive front end *)

Section Download.
Context {V : Type} `{!Pandas V}.

(** The header of [df.to_csv()] names the first column after the index. *)
Lemma to_csv_header (df : DataFrame V) :
  forallb reads_back (default "" (index_name df) :: labels df) = true ->
  csv_header (to_csv df) = default "" (index_name df) :: labels df.
Proof. intros Hls. unfold to_csv. now apply csv_header_csv_row. Qed.

(** The download keeps the index name: for a frame indexed by [ts_event]
    its header starts with [ts_event], not with [timestamp]. *)
Lemma download_button_header (df : DataFrame V) (start_date end_date : date) :
  index_name df = Some "ts_event" ->
  forallb reads_back (labels df) = true ->
  csv_header (dl_data (download_button df start_date end_date)) = "ts_event" :: labels df.
Proof.
  intros Hn Hls. simpl. rewrite to_csv_header; rewrite Hn; [done|].
  simpl. exact Hls.
Qed.
End Download.

(** ** Repeating an export *)

Lemma node_at_insert_Dir ns k key :
  node_at ns key = Some Dir -> node_at (<[k := Dir]> ns) key = Some Dir.
Proof.
  destruct key as [|c key]; [done|]. simpl.
  destruct (decide (k = c :: key)) as [->|Hne].
  - now rewrite lookup_insert_eq.
  - now rewrite lookup_insert_ne.
Qed.

(** Creating directories never removes one. *)
Lemma make_dirs_keeps_dirs ns seen cur comps o ns1 key :
  make_dirs ns seen cur comps = (o, ns1) ->
  node_at ns key = Some Dir -> node_at ns1 key = Some Dir.
Proof.
  revert ns seen cur. induction comps as [|c cs IH]; intros ns seen cur; simpl.
  - now intros [= <- <-].
  - destruct (skip_component c); [apply IH|].
    destruct (string_eqb c ".."); [apply IH|].
    destruct (node_at ns (cur ++ [c])) as [[|t]|] eqn:Hn.
    + apply IH.
    + destruct (has_name cs); now intros [= <- <-].
    + intros Hm Hk. apply (IH _ _ _ Hm). now apply node_at_insert_Dir.
Qed.

(** After [make_dirs] every directory on the way exists. *)
Lemma make_dirs_then_walk ns seen path cur comps ns1 :
  make_dirs ns seen cur comps = (Ok tt, ns1) ->
  exists r, walk_dirs ns1 path cur comps = Ok r.
Proof.
  revert ns seen cur. induction comps as [|c cs IH]; intros ns seen cur; simpl.
  - intros _. now exists cur.
  - destruct (skip_component c); [apply IH|].
    destruct (string_eqb c ".."); [apply IH|].
    destruct (node_at ns (cur ++ [c])) as [[|t]|] eqn:Hn.
    + intros Hm. rewrite (make_dirs_keeps_dirs _ _ _ _ _ _ _ Hm Hn).
      now apply (IH ns (seen ++ [c])).
    + now destruct (has_name cs).
    + intros Hm.
      assert (Hk : node_at (<[cur ++ [c] := Dir]> ns) (cur ++ [c]) = Some Dir).
      { destruct (cur ++ [c]) eqn:Hc; [done|]. simpl. now rewrite lookup_insert_eq. }
      rewrite (make_dirs_keeps_dirs _ _ _ _ _ _ _ Hm Hk). now apply (IH _ _ _ Hm).
Qed.

(** Where every directory on the way exists, [make_dirs] changes nothing. *)
Lemma walk_then_make_dirs ns seen path cur comps r :
  walk_dirs ns path cur comps = Ok r -> make_dirs ns seen cur comps = (Ok tt, ns).
Proof.
  revert seen cur. induction comps as [|c cs IH]; intros seen cur; simpl; [done|].
  destruct (skip_component c); [apply IH|].
  destruct (string_eqb c ".."); [apply IH|].
  destruct (node_at ns (cur ++ [c])) as [[|t]|]; [apply IH|done..].
Qed.

(** [os.makedirs] leaves the named directory in place. *)
Lemma os_makedirs_isdir name fs fs1 :
  os_makedirs_exist_ok name fs = (Ok tt, fs1) ->
  isdir name fs1 = true /\ cwd fs1 = cwd fs.
Proof.
  unfold os_makedirs_exist_ok, isdir.
  destruct (string_eqb name ""); [done|].
  destruct (make_dirs _ _ _ _) as [o ns1] eqn:Hm.
  intros [= -> <-]. unfold start_dir in *. simpl.
  destruct (make_dirs_then_walk _ _ name _ _ _ Hm) as [r ->]. done.
Qed.

(** [os.makedirs(name, exist_ok=True)] on an existing directory succeeds
    and changes nothing. *)
Lemma os_makedirs_existing name fs :
  isdir name fs = true -> os_makedirs_exist_ok name fs = (Ok tt, fs).
Proof.
  unfold os_makedirs_exist_ok, isdir.
  destruct (string_eqb name ""); [done|].
  destruct (walk_dirs _ _ _ _) as [r|] eqn:Hw; [|done].
  intros _. rewrite (walk_then_make_dirs _ [] _ _ _ _ Hw). now destruct fs.
Qed.

(** Writing a file leaves the directories in place. *)
Lemma isdir_after_write name path text fs fs2 :
  write_text path text fs = (Ok tt, fs2) -> isdir name fs = true -> isdir name fs2 = true.
Proof.
  intros (k & _ & Hk & ->)%write_text_Ok_inv. unfold isdir, start_dir; simpl.
  destruct (string_eqb name ""); [done|].
  destruct (walk_dirs (nodes fs) _ _ _) as [r|] eqn:Hw; [|done].
  now rewrite (walk_dirs_insert_file _ _ _ _ _ _ text Hk Hw).
Qed.

(** Writing the same text again succeeds and changes nothing. *)
Lemma write_text_again path text fs fs2 :
  write_text path text fs = (Ok tt, fs2) -> write_text path text fs2 = (Ok tt, fs2).
Proof.
  intros Hw. destruct (write_text_Ok_inv _ _ _ _ Hw) as (k & Hres & Hk & ->).
  pose proof (resolved_key_not_root _ _ _ Hres) as Hroot.
  unfold write_text.
  rewrite (resolve_file_after_write _ _ _ text Hres Hk). simpl.
  destruct k; [done|]. simpl. rewrite lookup_insert_eq.
  now rewrite insert_insert_eq.
Qed.

Section ExportTwice.
Context {V : Type} `{!Pandas V} `{!Databento V} `{!PyStrExn}.

(** A successful export leaves the parent directory of the file in place
    and the text in the file. *)
Lemma save_to_csv_creates_parent self (df : DataFrame V) filepath w w' :
  save_to_csv self df filepath w = (Ok tt, w') ->
  isdir (dirname filepath) (w_fs w') = true /\ is_Ok (read_text filepath (w_fs w')) = true.
Proof.
  intros (fs1 & d & fs2 & Hm & Hd & Hw & ->)%save_to_csv_Ok_inv. simpl. split.
  - apply (isdir_after_write _ _ _ _ _ Hw).
    now apply os_makedirs_isdir in Hm as [Hdir _].
  - now rewrite (read_after_write _ _ _ _ Hw).
Qed.

(** When an export has succeeded, the same export repeated in the world it
    left succeeds as well and leaves the file system as it is: the file is
    written over with the same text. *)
Lemma save_to_csv_idempotent self (df : DataFrame V) filepath w w' :
  save_to_csv self df filepath w = (Ok tt, w') ->
  save_to_csv self df filepath w' =
  (Ok tt, logged [(INFO, "Data saved to " +:+ filepath)] w').
Proof.
  intros Hs.
  destruct (save_to_csv_creates_parent _ _ _ _ _ Hs) as [Hdir _].
  destruct (save_to_csv_Ok_inv _ _ _ _ _ Hs) as (fs1 & d & fs2 & Hm & Hd & Hw & ->).
  simpl in Hdir.
  assert (Hw2 : write_text filepath (to_csv_no_index d) fs2 = (Ok tt, fs2)).
  { apply os_makedirs_isdir in Hm as [Hdir1 _].
    unfold isdir in Hdir1. destruct (string_eqb (dirname filepath) "") eqn:He; [done|].
    now apply (write_text_again _ _ fs1). }
  rewrite (save_to_csv_after_makedirs self df filepath _ fs2 d);
    [|now apply os_makedirs_existing|exact Hd].
  rewrite Hw2. reflexivity.
Qed.
End ExportTwice.

(** ** The scenarios, evaluated *)



(** C2, counterexample.  Two successful calls of [fetch_data].  For bars
    whose opening price comes in two columns the result has six columns,
    [open] twice.  For bars indexed by the receive time, without a
    [ts_event] column, the result is indexed by the receive time. *)
Lemma fetch_data_six_columns_or_receive_index :
  (fetch_with Bars (Ok Samples.bars_open_twice) w0).1 = Ok Samples.ohlcv_open_twice /\
  labels Samples.ohlcv_open_twice = ["open"; "open"; "high"; "low"; "close"; "volume"] /\
  (fetch_with Bars (Ok Samples.bars_by_recv) w0).1 = Ok Samples.ohlcv_by_recv /\
  in_columns "ts_event" Samples.bars_by_recv = false /\
  index_name Samples.ohlcv_by_recv = Some "ts_recv" /\
  index Samples.ohlcv_by_recv = index Samples.bars_by_recv.
Proof. repeat split; vm_compute; reflexivity. Qed.

Lemma fetch_data_ohlcv_shape_witness :
  exists t,
    t = bars /\
    columns ohlcv = select keep_cols (columns t) /\
    (forall l, l ∈ labels ohlcv <-> l ∈ keep_cols) /\
    labels ohlcv = ["open"; "high"; "low"; "close"; "volume"] /\
    index_name ohlcv = Some "ts_event" /\
    pd_to_datetime ["2025-03-21 09:30:00+00:00"; "2025-03-21 09:31:00+00:00"] =
      Ok (index ohlcv).
Proof.
  destruct (@fetch_data_ohlcv_shape string pandas_text (vendor (Ok bars)) str_exn_text
              (fetcher (Ok bars)) DEFAULT_START_TIME DEFAULT_END_TIME
              w0 (fetch_with Bars (Ok bars) w0).2 ohlcv)
    as (t & Ht & Hcols & Hset & _ & Hlist & _ & _ & Hidx & _).
  - vm_compute. reflexivity.
  - exists t. vm_compute in Ht. injection Ht as <-.
    split; [reflexivity|]. split; [exact Hcols|]. split; [exact Hset|].
    split.
    + apply Hlist. intros k Hk. unfold keep_cols in Hk.
      repeat (apply elem_of_cons in Hk as [->|Hk]; [vm_compute; lia|]).
      now apply elem_of_nil in Hk.
    + apply Hidx. reflexivity.
Defined.

(** C3, counterexample.  The quotes are indexed by [ts_event] and have a
    column whose label holds a carriage return.  Their export succeeds and
    writes the label as it is; read back, the header ends at the carriage
    return and is not the list of the labels after [timestamp]. *)
Lemma save_to_csv_header_cut_at_carriage_return :
  index_name Samples.quotes = Some "ts_event" /\
  (export_with Samples.quotes OUTPUT_FILE w0).1 = Ok tt /\
  exists text,
    read_text OUTPUT_FILE (w_fs (export_with Samples.quotes OUTPUT_FILE w0).2) = Ok text /\
    text = "timestamp,bid" +:+ String CR "ask,size" +:+ String LF
           "2025-03-21 09:30:00+00:00,19850.0,4" +:+ String LF "" /\
    csv_header text = ["timestamp"; "bid"] /\
    csv_header text <> "timestamp" :: labels Samples.quotes.
Proof.
  split; [reflexivity|]. split; [vm_compute; reflexivity|].
  eexists. split; [vm_compute; reflexivity|].
  split; [vm_compute; reflexivity|].
  split; [vm_compute; reflexivity|].
  vm_compute. discriminate.
Qed.

Lemma save_to_csv_timestamp_header_witness :
  exists text,
    read_text OUTPUT_FILE (w_fs (export_with ohlcv OUTPUT_FILE w0).2) = Ok text /\
    hd_error (csv_header text) = Some "timestamp" /\
    csv_header text = ["timestamp"; "open"; "high"; "low"; "close"; "volume"].
Proof.
  destruct (@save_to_csv_timestamp_header string pandas_text (vendor (Ok bars)) str_exn_text
              (fetcher (Ok bars)) ohlcv OUTPUT_FILE w0 (export_with ohlcv OUTPUT_FILE w0).2)
    as (text & Hread & _ & Hfirst & Hheader).
  - reflexivity.
  - vm_compute. reflexivity.
  - exists text. split; [exact Hread|]. split; [exact Hfirst|].
    apply Hheader. reflexivity.
Defined.

(** C4, at the fixture.  The page offers, for the fetched bars, a download
    named after the two dates whose header names its first column
    [ts_event], the name of the index; the header of the batch export of the
    same bars names it [timestamp]. *)
Lemma download_csv_header_is_ts_event :
  exists dl text,
    (page_with (Ok bars) w0).1 = Ok (Displayed ohlcv dl) /\
    read_text OUTPUT_FILE (w_fs (batch_with (Ok bars) w0).2) = Ok text /\
    csv_header (dl_data dl) = ["ts_event"; "open"; "high"; "low"; "close"; "volume"] /\
    csv_header text = ["timestamp"; "open"; "high"; "low"; "close"; "volume"] /\
    dl_file_name dl = "nq_futures_data_2025-03-21_2025-03-22.csv".
Proof.
  eexists _, _. split; [vm_compute; reflexivity|].
  split; [vm_compute; reflexivity|].
  repeat split; vm_compute; reflexivity.
Qed.

(** C5, counterexample.  A file is in the way of the output directory; the
    [FileExistsError] of the directory creation is what [save_to_csv]
    raises, not an [ExportError] wrapping it. *)
Lemma save_to_csv_surfaces_no_ExportError :
  os_makedirs_exist_ok (dirname OUTPUT_FILE) (w_fs w_blocked) =
    (Raise (FileExistsError "data"), w_fs w_blocked) /\
  ~ surfaces_wrapped "ExportError" (export_with ohlcv OUTPUT_FILE w_blocked)
                     (FileExistsError "data").
Proof.
  split; [vm_compute; reflexivity|].
  intros (e' & He' & Hcls & _).
  vm_compute in He'. injection He' as <-. discriminate Hcls.
Qed.

Lemma save_to_csv_reraises_os_error_witness :
  export_with ohlcv OUTPUT_FILE w_blocked =
    (Raise (FileExistsError "data"),
     logged [(ERROR, "Error saving data to CSV: [Errno 17] File exists: 'data'")]
            w_blocked) /\
  ~ surfaces_wrapped "ExportError" (export_with ohlcv OUTPUT_FILE w_blocked)
                     (FileExistsError "data").
Proof.
  apply (@save_to_csv_reraises_os_error string pandas_text (vendor (Ok bars)) str_exn_text
           (fetcher (Ok bars)) ohlcv OUTPUT_FILE w_blocked
           (FileExistsError "data") (w_fs w_blocked)).
  apply makedirs_fails. vm_compute. reflexivity.
Defined.

Lemma batch_empty_result_exits_zero_witness :
  batch_with (Ok no_rows) w0 =
    (0%Z, {| w_log := w_log (fetch_with Bars (Ok no_rows) (logged [init_record] w0)).2;
             w_stdout := ["No data available for the specified date range."];
             w_fs := w_fs w0 |}) /\
  read_text OUTPUT_FILE (w_fs (batch_with (Ok no_rows) w0).2) =
    Raise (FileNotFoundError OUTPUT_FILE).
Proof.
  apply (@batch_empty_result_exits_zero string pandas_text (vendor (Ok no_rows)) str_exn_text
           w0 (fetch_with Bars (Ok no_rows) (logged [init_record] w0)).2
           (tt : @Client string (vendor (Ok no_rows))) no_bars).
  - reflexivity.
  - vm_compute. reflexivity.
  - reflexivity.
Defined.

(** C7, at the path of the spec's scenario.  Exporting the bars to [out.csv]
    fails in the directory creation, the first time and again the second
    time, and no file appears. *)
Lemma export_to_out_csv_fails_twice :
  (export_with ohlcv "out.csv" w0).1 = Raise (FileNotFoundError "") /\
  w_fs (export_with ohlcv "out.csv" w0).2 = w_fs w0 /\
  (export_with ohlcv "out.csv" (export_with ohlcv "out.csv" w0).2).1 =
    Raise (FileNotFoundError "") /\
  read_text "out.csv"
            (w_fs (export_with ohlcv "out.csv" (export_with ohlcv "out.csv" w0).2).2) =
    Raise (FileNotFoundError "out.csv").
Proof. repeat split; vm_compute; reflexivity. Qed.




Lemma fetch_data_requires_ohlcv_columns_witness :
  fetch_with Bars (Ok no_rows_no_columns) w0 =
    (Raise (KeyError keep_cols),
     logged [(INFO, "Fetching NQM5 OHLCV data from 2025-03-21 00:00:00+00:00 to 2025-03-22 00:00:00+00:00");
             (ERROR, "Error fetching OHLCV data: " +:+ str_exn (KeyError keep_cols))] w0).
Proof.
  destruct (@fetch_data_requires_ohlcv_columns string pandas_text
              (vendor (Ok no_rows_no_columns)) str_exn_text
              (fetcher (Ok no_rows_no_columns)) DEFAULT_START_TIME DEFAULT_END_TIME
              w0 no_rows_no_columns)
    as [_ Hmissing].
  - reflexivity.
  - destruct Hmissing as (x & Hrun & _ & _ & Hx).
    + exists "open". split; [apply list_elem_of_here|]. intros Hin.
      now apply elem_of_nil in Hin.
    + rewrite (Hx eq_refl) in Hrun. exact Hrun.
Defined.

(** ** Every path through a fetch *)

Section FetchPaths.
Context {V : Type} `{!Pandas V} `{!Databento V} `{!PyStrExn}.

(** A [try] block that logs, runs steps that only raise or return, logs
    again and returns, under a handler that logs and re-raises. *)
Lemma try_log_steps {A} (steps : outcome A) (start : string)
      (success : A -> string) (failure : exn -> string) (w : world) :
  try_except_Exception
    (_ ← log_record INFO start;
     a ← lift steps;
     _ ← log_record INFO (success a);
     mret a)
    (fun e => _ ← log_record ERROR (failure e); raise e) w =
  (steps,
   logged ((INFO, start) ::
           match steps with
           | Ok a => [(INFO, success a)]
           | Raise x => if exc_is_Exception x then [(ERROR, failure x)] else []
           end) w).
Proof.
  destruct steps as [a|x].
  - erewrite try_Ok; [reflexivity|].
    rewrite bind_log. rewrite (bind_lift_Ok _ _ _ a) by done.
    rewrite bind_log. now rewrite logged_app.
  - erewrite try_Raise.
    2: { rewrite bind_log. now rewrite (bind_lift_Raise _ _ _ x). }
    destruct (exc_is_Exception x); [|reflexivity].
    rewrite bind_log. now rewrite logged_app.
Qed.

(** Consecutive steps are one step. *)
Lemma lift_and_then {A B C} (o : outcome A) (f : A -> outcome B) (k : B -> M C) w :
  (a ← lift o; b ← lift (f a); k b) w = (b ← lift (and_then o f); k b) w.
Proof. now destruct o. Qed.

Lemma vendor_table_steps self schema s e {B} (k : DataFrame V -> M B) w :
  (data ← lift (timeseries_get_range (client self) DATASET [SYMBOL] schema
                                     (isoformat s) (isoformat e));
   df ← lift (to_df data); k df) w =
  (df ← lift (vendor_table self schema s e); k df) w.
Proof. unfold vendor_table. now destruct (timeseries_get_range _ _ _ _ _ _). Qed.

(** The outcome and the world of a fetch, from its steps. *)
Lemma fetch_run (op : fetch_op) self s e w :
  run_fetch op self s e w =
  (fetch_steps op self s e,
   logged (fetch_records op s e (fetch_steps op self s e)) w).
Proof.
  unfold fetch_records.
  rewrite <- (try_log_steps (fetch_steps op self s e) (start_message op s e)
                            (success_message op) (error_message op) w).
  unfold try_except_Exception.
  assert (Hbody : forall (body body' : M (DataFrame V)),
             body w = body' w ->
             forall h, match body w with
                       | (Ok a, w') => (Ok a, w')
                       | (Raise x, w') =>
                           if exc_is_Exception x then h x w' else (Raise x, w')
                       end =
                       match body' w with
                       | (Ok a, w') => (Ok a, w')
                       | (Raise x, w') =>
                           if exc_is_Exception x then h x w' else (Raise x, w')
                       end).
  { intros body body' ->. reflexivity. }
  destruct op; simpl run_fetch;
    [unfold fetch_data | unfold fetch_statistics | unfold fetch_trades | unfold fetch_mbp10];
    unfold try_except_Exception, logger_info, logger_error;
    apply Hbody; rewrite !bind_log; cbv zeta; unfold fetch_steps.
  - rewrite vendor_table_steps.
    rewrite lift_and_then. rewrite lift_and_then. rewrite lift_and_then.
    reflexivity.
  - rewrite lift_and_then. reflexivity.
  - rewrite vendor_table_steps.
    rewrite lift_and_then. rewrite lift_and_then. reflexivity.
  - rewrite vendor_table_steps.
    rewrite lift_and_then. rewrite lift_and_then. reflexivity.
Qed.
End FetchPaths.

(** ** What a fetch does and does not do *)

Section FetchEffects.
Context {V : Type} `{!Pandas V} `{!Databento V} `{!PyStrExn}.

(** X1.  Whatever its outcome, a fetch operation leaves the file system as
    it was and prints nothing.  To the log it adds the start record and
    then one record when it returns (the success record) or raises an
    instance of [Exception] (the error record), none when it raises
    something else. *)
Theorem fetch_only_logs
        (op : fetch_op) (self : NQDataFetcher) (start_time end_time : datetime)
        (w : world) :
  w_fs (run_fetch op self start_time end_time w).2 = w_fs w /\
  w_stdout (run_fetch op self start_time end_time w).2 = w_stdout w /\
  w_log (run_fetch op self start_time end_time w).2 =
    w_log w ++ fetch_records op start_time end_time
                             (run_fetch op self start_time end_time w).1.
Proof. rewrite fetch_run. done. Qed.

Lemma promote_ts_event_rows (t t1 : DataFrame V) :
  rectangular t -> promote_ts_event t = Ok t1 ->
  rectangular t1 /\ len t1 = len t.
Proof.
  unfold rectangular. intros Hr. rewrite promote_ts_event_total. intros [= <-].
  assert (Hlen : length (event_index t).2 = len t).
  { unfold event_index.
    destruct (filter (fun c => c.1 = "ts_event") (columns t)) as [|c [|c' cs]] eqn:Hf;
      [done| |].
    - assert (Hin : c ∈ filter (fun c => c.1 = "ts_event") (columns t))
        by (rewrite Hf; apply list_elem_of_here).
      apply list_elem_of_filter in Hin as [_ Hin].
      exact (proj1 (Forall_forall _ _) Hr c Hin).
    - cbn [snd]. unfold tuple_index. now rewrite length_fmap, length_seq. }
  split; [|exact Hlen]. unfold len; cbn [index columns].
  apply Forall_forall. intros c0 [_ Hc0]%list_elem_of_filter.
  rewrite (proj1 (Forall_forall _ _) Hr c0 Hc0). now symmetry.
Qed.

Lemma getitem_list_rows keys (t t1 : DataFrame V) :
  rectangular t -> getitem_list keys t = Ok t1 ->
  rectangular t1 /\ len t1 = len t.
Proof.
  unfold rectangular. intros Hr [_ ->]%getitem_list_Ok. split; [|done].
  unfold len; simpl. apply Forall_forall. intros c [Hc _]%select_columns_sound.
  exact (proj1 (Forall_forall _ _) Hr c Hc).
Qed.

Lemma parse_index_rows (t t1 : DataFrame V) :
  rectangular t -> parse_index t = Ok t1 ->
  rectangular t1 /\ len t1 = len t.
Proof.
  unfold rectangular, parse_index, assign_index. intros Hr.
  destruct (pd_to_datetime (index t)) as [idx|]; [|done].
  destruct (length idx =? len t)%nat eqn:Hlen; [|done].
  apply Nat.eqb_eq in Hlen. intros [= <-]. unfold len in *; simpl.
  split; [|exact Hlen]. now rewrite Hlen.
Qed.

(** X3.  A time-series fetch keeps the rows of the vendor table: when the
    vendor table has one value per row in every column, so has the table
    returned, and it has as many rows. *)
Theorem fetch_keeps_rows
        (op : fetch_op) (self : NQDataFetcher) (start_time end_time : datetime)
        (w w' : world) (t df : DataFrame V) :
  op <> Reference ->
  vendor_table self (op_schema op) start_time end_time = Ok t ->
  rectangular t ->
  run_fetch op self start_time end_time w = (Ok df, w') ->
  rectangular df /\ len df = len t.
Proof.
  intros Hop Ht Hr Hf. rewrite fetch_run in Hf. injection Hf as Hs _.
  assert (Hticks : and_then (and_then (Ok t) promote_ts_event) parse_index = Ok df ->
                   rectangular df /\ len df = len t).
  { simpl. destruct (promote_ts_event t) as [t1|] eqn:H1; [|done]. simpl.
    intros H3.
    destruct (promote_ts_event_rows _ _ Hr H1) as [Hr1 Hl1].
    destruct (parse_index_rows _ _ Hr1 H3) as [Hr3 Hl3].
    split; [done|congruence]. }
  destruct op; [|done| |]; unfold fetch_steps in Hs; simpl op_schema in *;
    rewrite Ht in Hs; [|now apply Hticks..].
  simpl in Hs. destruct (promote_ts_event t) as [t1|] eqn:H1; [|done]. simpl in Hs.
  destruct (getitem_list keep_cols t1) as [t2|] eqn:H2; [|done]. simpl in Hs.
  destruct (promote_ts_event_rows _ _ Hr H1) as [Hr1 Hl1].
  destruct (getitem_list_rows _ _ _ Hr1 H2) as [Hr2 Hl2].
  destruct (parse_index_rows _ _ Hr2 Hs) as [Hr3 Hl3].
  split; [done|congruence].
Qed.

(** X4.  [fetch_statistics] uses only the calendar dates of its range: two
    ranges with the same start date and the same end date have the same
    outcome, whatever their times of day.  The frame it returns is the one
    built from the vendor's records, as it is. *)
Theorem fetch_statistics_by_date
        (self : NQDataFetcher) (s e s' e' : datetime) (w : world) :
  dt_date s = dt_date s' -> dt_date e = dt_date e' ->
  (fetch_statistics self s e w).1 = (fetch_statistics self s' e' w).1 /\
  (forall df, (fetch_statistics self s e w).1 = Ok df ->
     exists data,
       metadata_get_definition (client self) DATASET [SYMBOL] (dt_date s) (dt_date e)
         = Ok data /\
       pd_DataFrame data = Ok df).
Proof.
  intros Hs He.
  pose proof (fetch_run Reference self s e w) as Hrun.
  pose proof (fetch_run Reference self s' e' w) as Hrun'.
  simpl run_fetch in Hrun, Hrun'. rewrite Hrun, Hrun'. simpl.
  split; [now rewrite Hs, He|].
  intros df. destruct (metadata_get_definition _ _ _ _ _) as [data|]; [|done].
  simpl. intros Hdf. now exists data.
Qed.
End FetchEffects.

(** ** What an export changes *)

Lemma node_at_lookup (ns : gmap (list string) node) (k : list string) :
  k <> [] -> node_at ns k = ns !! k.
Proof. now destruct k. Qed.

Lemma snoc_not_nil {A} (l : list A) (x : A) : l ++ [x] <> [].
Proof. now destruct l. Qed.

Lemma append_not_nil {A} (l : list A) (x : A) (xs : list A) : l ++ x :: xs <> [].
Proof. now destruct l. Qed.

(** Creating directories keeps every node there is, whatever the outcome. *)
Lemma make_dirs_keeps_nodes ns seen cur comps o ns1 k n :
  make_dirs ns seen cur comps = (o, ns1) ->
  ns !! k = Some n -> ns1 !! k = Some n.
Proof.
  revert ns seen cur. induction comps as [|c cs IH]; intros ns seen cur; simpl.
  - now intros [= <- <-].
  - destruct (skip_component c); [apply IH|].
    destruct (string_eqb c ".."); [apply IH|].
    destruct (node_at ns (cur ++ [c])) as [[|t]|] eqn:Hn.
    + apply IH.
    + destruct (has_name cs); now intros [= <- <-].
    + intros Hm Hk. apply (IH _ _ _ Hm).
      rewrite node_at_lookup in Hn by apply snoc_not_nil.
      rewrite lookup_insert_ne; [done|]. intros Heq. congruence.
Qed.

(** Creating directories creates no file. *)
Lemma make_dirs_adds_only_dirs ns seen cur comps o ns1 k t :
  make_dirs ns seen cur comps = (o, ns1) ->
  ns1 !! k = Some (File t) -> ns !! k = Some (File t).
Proof.
  revert ns seen cur. induction comps as [|c cs IH]; intros ns seen cur; simpl.
  - now intros [= <- <-].
  - destruct (skip_component c); [apply IH|].
    destruct (string_eqb c ".."); [apply IH|].
    destruct (node_at ns (cur ++ [c])) as [[|t']|] eqn:Hn.
    + apply IH.
    + destruct (has_name cs); now intros [= <- <-].
    + intros Hm Hk. specialize (IH _ _ _ Hm Hk).
      destruct (decide (cur ++ [c] = k)) as [<-|Hne].
      * now rewrite lookup_insert_eq in IH.
      * now rewrite lookup_insert_ne in IH.
Qed.

Lemma os_makedirs_keeps name fs o fs1 :
  os_makedirs_exist_ok name fs = (o, fs1) ->
  cwd fs1 = cwd fs /\
  (forall k n, nodes fs !! k = Some n -> nodes fs1 !! k = Some n) /\
  (forall k t, nodes fs1 !! k = Some (File t) -> nodes fs !! k = Some (File t)).
Proof.
  unfold os_makedirs_exist_ok.
  destruct (string_eqb name ""); [now intros [= <- <-]|].
  destruct (make_dirs _ _ _ _) as [o' ns1] eqn:Hm.
  intros [= <- <-]. simpl. split; [done|].
  split; eauto using make_dirs_keeps_nodes, make_dirs_adds_only_dirs.
Qed.

Section ExportEffects.
Context {V : Type} `{!Pandas V} `{!Databento V} `{!PyStrExn}.

Lemma frame_to_save_error_is_Exception (df : DataFrame V) e :
  frame_to_save df = Raise e -> exc_is_Exception e = true.
Proof.
  unfold frame_to_save, reset_index, publish_timestamp.
  destruct (in_columns _ df); [now intros [= <-]|]. simpl.
  destruct (string_eqb _ _); done.
Qed.

(** [save_to_csv] when the frame cannot be prepared: the directory has been
    made by then. *)
Lemma save_to_csv_frame_Raise self (df : DataFrame V) filepath w fs1 e :
  os_makedirs_exist_ok (dirname filepath) (w_fs w) = (Ok tt, fs1) ->
  frame_to_save df = Raise e ->
  save_to_csv self df filepath w =
  (Raise e, logged [save_error_record e] (with_files fs1 w)).
Proof.
  intros Hm Hd. unfold save_to_csv.
  erewrite try_Raise.
  2: { erewrite bind_Ok; [|exact (with_fs_run _ _ _ _ Hm)].
       unfold frame_to_save in Hd.
       destruct (reset_index df) as [d0|e0] eqn:Hr.
       - rewrite (bind_lift_Ok _ _ _ d0) by done.
         now rewrite (bind_lift_Raise _ _ _ e).
       - injection Hd as ->. now rewrite (bind_lift_Raise _ _ _ e). }
  rewrite (frame_to_save_error_is_Exception _ _ Hd). apply save_handler.
Qed.

(** Every path through [save_to_csv]. *)
Lemma save_to_csv_run self (df : DataFrame V) filepath w :
  save_to_csv self df filepath w =
  match os_makedirs_exist_ok (dirname filepath) (w_fs w) with
  | (Raise e, fs1) => (Raise e, logged [save_error_record e] (with_files fs1 w))
  | (Ok _, fs1) =>
      match frame_to_save df with
      | Raise e => (Raise e, logged [save_error_record e] (with_files fs1 w))
      | Ok d =>
          match write_text filepath (to_csv_no_index d) fs1 with
          | (Ok _, fs2) => (Ok tt, logged [saved_record filepath] (with_files fs2 w))
          | (Raise e, fs2) => (Raise e, logged [save_error_record e] (with_files fs2 w))
          end
      end
  end.
Proof.
  destruct (os_makedirs_exist_ok (dirname filepath) (w_fs w)) as [[[]|e] fs1] eqn:Hm.
  - destruct (frame_to_save df) as [d|e] eqn:Hd.
    + apply (save_to_csv_after_makedirs _ _ _ _ _ _ Hm Hd).
    + now apply save_to_csv_frame_Raise.
  - now apply save_to_csv_makedirs_Raise.
Qed.


Lemma reset_index_label_not_ts_event (df : DataFrame V) :
  index_name df <> Some "ts_event" -> reset_index_label df <> "ts_event".
Proof.
  unfold reset_index_label. destruct (index_name df) as [n|]; [congruence|].
  now destruct (in_columns "index" df).
Qed.

(** X6.  Only an index named [ts_event] is renamed: a successful export of
    a frame whose index has another name, or none, writes a header record
    that starts with the name [reset_index] gives the index ([index], or
    [level_0] beside a column [index], for an unnamed one), followed by the
    labels of the columns as they are, and then the rows, index value
    first.  Read back, the header gives these names when each of them is
    one the reader gives back as written: a name that is written quoted, or
    one without a carriage return. *)
Theorem save_to_csv_keeps_other_index_names
        (self : NQDataFetcher) (df : DataFrame V) (filepath : string) (w w' : world) :
  index_name df <> Some "ts_event" ->
  save_to_csv self df filepath w = (Ok tt, w') ->
  exists text,
    read_text filepath (w_fs w') = Ok text /\
    text = csv_row (reset_index_label df :: labels df) +:+
           csv_text (data_rows_with_index df) /\
    (forallb reads_back (reset_index_label df :: labels df) = true ->
     csv_header text = reset_index_label df :: labels df).
Proof.
  intros Hn Hs.
  destruct (save_to_csv_Ok_inv _ _ _ _ _ Hs) as (fs1 & d & fs2 & Hm & Hd & Hw & ->).
  assert (Htext : to_csv_no_index d =
                  csv_row (reset_index_label df :: labels df) +:+
                  csv_text (data_rows_with_index df)).
  { pose proof (reset_index_label_not_ts_event _ Hn) as Hl.
    revert Hd. unfold frame_to_save, reset_index.
    destruct (in_columns (reset_index_label df) df); [done|].
    unfold publish_timestamp; simpl.
    unfold string_eqb. rewrite bool_decide_eq_false_2 by done.
    intros [= <-].
    unfold to_csv_no_index, data_rows, data_rows_with_index, labels, len; simpl.
    now rewrite length_fmap, length_seq. }
  exists (to_csv_no_index d). split; [|split].
  - simpl. apply (read_after_write _ _ _ _ Hw).
  - exact Htext.
  - intros Hls. rewrite Htext. now apply csv_header_csv_row.
Qed.

(** X7.  A frame whose index would become a column that is already there
    is rejected with a [ValueError], logged and raised; by then the
    directory has been made, and no file has been written. *)
Theorem save_to_csv_rejects_clashing_index
        (self : NQDataFetcher) (df : DataFrame V) (filepath : string)
        (w : world) (fs1 : filesystem) :
  in_columns (reset_index_label df) df = true ->
  os_makedirs_exist_ok (dirname filepath) (w_fs w) = (Ok tt, fs1) ->
  let e := ValueError ["cannot insert " +:+ reset_index_label df +:+ ", already exists"] in
  save_to_csv self df filepath w =
    (Raise e, logged [save_error_record e] (with_files fs1 w)) /\
  isdir (dirname filepath) fs1 = true /\
  (forall k t, nodes fs1 !! k = Some (File t) -> nodes (w_fs w) !! k = Some (File t)).
Proof.
  intros Hin Hm e. split; [|split].
  - apply (save_to_csv_frame_Raise _ _ _ _ _ _ Hm).
    unfold frame_to_save, reset_index. now rewrite Hin.
  - now apply os_makedirs_isdir in Hm as [Hdir _].
  - now apply os_makedirs_keeps in Hm as (_ & _ & Hfiles).
Qed.

(** X8.  A frame returned by [fetch_data] is always fit for export, unless
    its index is named like one of the five columns: when its export
    fails, the failure is that of the directory creation or of the file
    write. *)
Theorem fetched_frame_export_fails_only_on_files
        (self : NQDataFetcher) (start_time end_time : datetime) (w0 w1 : world)
        (df : DataFrame V) (filepath : string) (w w' : world) (x : exn) :
  fetch_data self start_time end_time w0 = (Ok df, w1) ->
  (forall n, index_name df = Some n -> n ∉ keep_cols) ->
  save_to_csv self df filepath w = (Raise x, w') ->
  export_failure df filepath (w_fs w) x (w_fs w').
Proof.
  intros Hf Hname Hs.
  destruct (fetch_data_Ok_inv _ _ _ _ _ _ Hf) as (t & t1 & t2 & _ & _ & H2 & H3 & _).
  destruct (getitem_list_Ok _ _ _ H2) as [_ ->].
  destruct (parse_index_Ok _ _ H3) as (_ & Hc & _).
  cbn [index_name index columns] in Hc.
  assert (Hlabels : forall l, l ∈ labels df -> l ∈ keep_cols).
  { intros l. unfold labels. rewrite Hc. apply select_labels_sound. }
  assert (Hfree : in_columns (reset_index_label df) df = false).
  { destruct (in_columns (reset_index_label df) df) eqn:Hin; [|done].
    apply in_columns_labels, Hlabels in Hin. exfalso. revert Hin.
    unfold reset_index_label. destruct (index_name df) as [n|] eqn:Hn.
    - now apply Hname.
    - unfold keep_cols. destruct (in_columns "index" df); intros Hin;
        repeat (apply elem_of_cons in Hin as [Hin|Hin]; [discriminate|]);
        now apply elem_of_nil in Hin. }
  assert (Hd : exists d, frame_to_save df = Ok d).
  { unfold frame_to_save, reset_index. rewrite Hfree.
    unfold publish_timestamp; simpl. destruct (string_eqb _ _); eauto. }
  destruct Hd as [d Hd].
  rewrite save_to_csv_run in Hs.
  destruct (os_makedirs_exist_ok (dirname filepath) (w_fs w)) as [[[]|e] fs1] eqn:Hm.
  - rewrite Hd in Hs.
    destruct (write_text filepath (to_csv_no_index d) fs1) as [[[]|e] fs2] eqn:Hw; [done|].
    injection Hs as -> <-. simpl. now apply (write_fails _ _ _ _ fs1 d).
  - injection Hs as -> <-. simpl. now apply makedirs_fails.
Qed.
End ExportEffects.

(** ** The output path of batch mode *)

Lemma output_file_path : OUTPUT_FILE = "data/nq_futures_data.csv".
Proof. reflexivity. Qed.

(** Making [data] in the working directory, when no file has that name. *)
Lemma makedirs_output_dir (fs : filesystem) :
  (forall text, node_at (nodes fs) (cwd fs ++ ["data"]) <> Some (File text)) ->
  exists fs1,
    os_makedirs_exist_ok (dirname OUTPUT_FILE) fs = (Ok tt, fs1) /\
    cwd fs1 = cwd fs /\
    nodes fs1 !! (cwd fs ++ ["data"]) = Some Dir /\
    (forall k, k <> cwd fs ++ ["data"] -> nodes fs1 !! k = nodes fs !! k).
Proof.
  intros Hfree.
  change (dirname OUTPUT_FILE) with "data".
  unfold os_makedirs_exist_ok, start_dir.
  change (string_eqb "data" "") with false.
  change (is_abs "data") with false.
  change (split_on slash "data") with ["data"].
  cbv iota. unfold make_dirs.
  change (skip_component "data") with false.
  change (string_eqb "data" "..") with false. cbv iota zeta.
  destruct (node_at (nodes fs) (cwd fs ++ ["data"])) as [[|t]|] eqn:Hn.
  - eexists. split; [reflexivity|]. simpl.
    rewrite node_at_lookup in Hn by apply snoc_not_nil. done.
  - now destruct (Hfree t).
  - eexists. split; [reflexivity|]. simpl. split; [done|].
    split; [now rewrite lookup_insert_eq|].
    intros k Hk. now rewrite lookup_insert_ne.
Qed.

(** Writing the output file once [data] is a directory. *)
Lemma write_output_file (fs1 : filesystem) (text : string) :
  nodes fs1 !! (cwd fs1 ++ ["data"]) = Some Dir ->
  nodes fs1 !! (cwd fs1 ++ ["data"; "nq_futures_data.csv"]) <> Some Dir ->
  exists fs2, write_text OUTPUT_FILE text fs1 = (Ok tt, fs2).
Proof.
  intros Hdir Hfile. rewrite output_file_path.
  unfold write_text, resolve_file, start_dir.
  change (string_eqb "data/nq_futures_data.csv" "") with false.
  change (is_abs "data/nq_futures_data.csv") with false.
  change (split_on slash "data/nq_futures_data.csv")
    with ["data"; "nq_futures_data.csv"].
  cbv iota zeta.
  change (removelast ["data"; "nq_futures_data.csv"]) with ["data"].
  change (List.last ["data"; "nq_futures_data.csv"] "") with "nq_futures_data.csv".
  unfold walk_dirs.
  change (skip_component "data") with false.
  change (string_eqb "data" "..") with false. cbv iota zeta.
  rewrite node_at_lookup by apply snoc_not_nil. rewrite Hdir.
  change (skip_component "nq_futures_data.csv" || string_eqb "nq_futures_data.csv" "..")
    with false.
  cbv iota. rewrite <- app_assoc. simpl app.
  rewrite node_at_lookup by apply append_not_nil.
  destruct (nodes fs1 !! (cwd fs1 ++ ["data"; "nq_futures_data.csv"])) as [[|t]|];
    [done|eauto..].
Qed.

Lemma output_keys_differ (cur : list string) :
  cur ++ ["data"; "nq_futures_data.csv"] <> cur ++ ["data"].
Proof.
  intros Heq. apply (f_equal length) in Heq.
  rewrite !length_app in Heq. simpl in Heq. lia.
Qed.

(** ** Batch mode, beyond the empty result *)

Section BatchPaths.
Context {V : Type} `{!Pandas V} `{!Databento V} `{!PyStrExn}.

Lemma cli_handler (x : exn) (w : world) :
  (_ ← logger_error ("Error in CLI mode: " +:+ str_exn x); sys_exit 1 : M unit) w =
  (Raise (SystemExit 1), logged [cli_error_record x] w).
Proof. reflexivity. Qed.

(** A frame returned by [fetch_data] carries the five labels and no other. *)
Lemma fetch_data_labels self s e w (df : DataFrame V) w' :
  fetch_data self s e w = (Ok df, w') ->
  (forall l, l ∈ labels df -> l ∈ keep_cols) /\
  (forall l, l ∈ keep_cols -> l ∈ labels df) /\
  w' = logged [(INFO, start_message Bars s e); (INFO, success_message Bars df)] w.
Proof.
  intros Hf.
  destruct (fetch_data_Ok_inv _ _ _ _ _ _ Hf) as (t & t1 & t2 & _ & _ & H2 & H3 & Hw).
  destruct (getitem_list_Ok _ _ _ H2) as [Hall ->].
  destruct (parse_index_Ok _ _ H3) as (_ & Hc & _).
  cbn [index_name index columns] in Hc.
  split; [|split; [|exact Hw]]; intros l; unfold labels; rewrite Hc.
  - apply select_labels_sound.
  - intros Hl. apply select_labels_complete; [done|]. now apply Hall.
Qed.

Lemma fetched_has_no_ts_event_column self s e w (df : DataFrame V) w' :
  fetch_data self s e w = (Ok df, w') -> in_columns "ts_event" df = false.
Proof.
  intros [Hl _]%fetch_data_labels.
  destruct (in_columns "ts_event" df) eqn:Hin; [|done].
  apply in_columns_labels, Hl in Hin. now apply ts_event_not_kept in Hin.
Qed.

(** The five labels hold no character the reader stumbles on. *)
Lemma keep_cols_read_back (ls : list string) :
  (forall l, l ∈ ls -> l ∈ keep_cols) -> forallb reads_back ls = true.
Proof.
  intros Hls. apply forallb_forall. intros l Hin%list_elem_of_In.
  apply Hls in Hin. unfold keep_cols in Hin.
  repeat (apply elem_of_cons in Hin as [->|Hin]; [reflexivity|]).
  now apply elem_of_nil in Hin.
Qed.

(** X9.  In batch mode, when the client is constructed, the fetch returns
    rows indexed by [ts_event] and nothing stands in the way of the output
    file, the process makes [data] if it is missing, writes the file, prints
    the saved line and ends with exit status 0; the header of the file is
    [timestamp] followed by the labels of the fetched columns. *)
Theorem batch_exports_rows
        (w w2 : world) (c : Client) (df : DataFrame V) :
  Historical API_KEY = Ok c ->
  fetch_data {| client := c |} DEFAULT_START_TIME DEFAULT_END_TIME
             (logged [init_record] w) = (Ok df, w2) ->
  0 < len df ->
  index_name df = Some "ts_event" ->
  output_path_usable (w_fs w) ->
  exists w3 text,
    batch_process w = (0%Z, w3) /\
    w_stdout w3 = w_stdout w ++ [saved_line] /\
    w_log w3 = w_log w2 ++ [saved_record OUTPUT_FILE] /\
    isdir OUTPUT_DIR (w_fs w3) = true /\
    read_text OUTPUT_FILE (w_fs w3) = Ok text /\
    csv_header text = "timestamp" :: labels df.
Proof.
  intros Hc Hf Hlen Hn [Hfree Hfile].
  pose proof (fetched_has_no_ts_event_column _ _ _ _ _ _ Hf) as Hts.
  destruct (fetch_data_labels _ _ _ _ _ _ Hf) as (Hfive & _ & Hw2).
  assert (Hfs2 : w_fs w2 = w_fs w) by now rewrite Hw2.
  assert (Hout2 : w_stdout w2 = w_stdout w) by now rewrite Hw2.
  destruct (makedirs_output_dir (w_fs w2)) as (fs1 & Hm & Hcwd & Hdir & Hother).
  { now rewrite Hfs2. }
  assert (Hd : exists d, frame_to_save df = Ok d).
  { unfold frame_to_save, reset_index, reset_index_label. rewrite Hn, Hts.
    unfold publish_timestamp. simpl. eauto. }
  destruct Hd as [d Hd].
  destruct (frame_to_save_ts_event _ _ Hn Hd) as [Hcols Hrows].
  destruct (write_output_file fs1 (to_csv_no_index d)) as [fs2 Hw].
  { now rewrite Hcwd. }
  { rewrite Hcwd, Hother by apply output_keys_differ.
    rewrite Hfs2. rewrite node_at_lookup in Hfile by apply append_not_nil. done. }
  pose proof (save_to_csv_after_makedirs {| client := c |} df OUTPUT_FILE w2 fs1 d Hm Hd)
    as Hsave.
  rewrite Hw in Hsave.
  eexists _, (to_csv_no_index d). split; [|split; [|split; [|split; [|split]]]].
  - unfold batch_process, run_cli.
    erewrite try_Ok; [reflexivity|].
    erewrite bind_Ok; [|exact (init_Ok _ _ Hc)].
    erewrite bind_Ok; [|exact Hf].
    apply Nat.ltb_lt in Hlen. rewrite Hlen.
    erewrite bind_Ok; [reflexivity|exact Hsave].
  - simpl. now rewrite Hout2.
  - reflexivity.
  - simpl. apply (isdir_after_write _ _ _ _ _ Hw).
    apply os_makedirs_isdir in Hm as [Hisdir _]. exact Hisdir.
  - simpl. apply (read_after_write _ _ _ _ Hw).
  - assert (Hl : labels d = "timestamp" :: labels df)
      by (unfold labels; now rewrite Hcols).
    unfold to_csv_no_index. rewrite Hl. apply csv_header_csv_row; [done|].
    simpl. now apply keep_cols_read_back.
Qed.

(** X10.  In batch mode a failure of the client's construction or of the
    fetch with an instance of [Exception] ends the process with exit
    status 1 after one more error record: nothing is printed and the file
    system stays as it was. *)
Theorem batch_fetch_failure_exits_one (w : world) (x : exn) :
  exc_is_Exception x = true ->
  (Historical API_KEY = Raise x ->
   batch_process w = (1%Z, logged [cli_error_record x] w)) /\
  (forall c w2,
     Historical API_KEY = Ok c ->
     fetch_data {| client := c |} DEFAULT_START_TIME DEFAULT_END_TIME
                (logged [init_record] w) = (Raise x, w2) ->
     batch_process w = (1%Z, logged [cli_error_record x] w2) /\
     w_stdout w2 = w_stdout w /\ w_fs w2 = w_fs w).
Proof.
  intros Hx. split.
  - intros Hc. unfold batch_process, run_cli.
    erewrite try_Raise.
    2: { erewrite bind_Raise; [reflexivity|].
         unfold NQDataFetcher_init. now rewrite (bind_lift_Raise _ _ _ x). }
    rewrite Hx. now rewrite cli_handler.
  - intros c w2 Hc Hf. split.
    + unfold batch_process, run_cli.
      erewrite try_Raise.
      2: { erewrite bind_Ok; [|exact (init_Ok _ _ Hc)].
           erewrite bind_Raise; [reflexivity|exact Hf]. }
      rewrite Hx. now rewrite cli_handler.
    + pose proof (fetch_run Bars {| client := c |} DEFAULT_START_TIME DEFAULT_END_TIME
                            (logged [init_record] w)) as Hrun.
      simpl run_fetch in Hrun. rewrite Hrun in Hf. injection Hf as _ <-. done.
Qed.

(** X11.  In batch mode a failed export ends the process with exit status 1
    after one more error record, and the saved line is not printed. *)
Theorem batch_export_failure_exits_one
        (w w2 w3 : world) (c : Client) (df : DataFrame V) (x : exn) :
  Historical API_KEY = Ok c ->
  fetch_data {| client := c |} DEFAULT_START_TIME DEFAULT_END_TIME
             (logged [init_record] w) = (Ok df, w2) ->
  0 < len df ->
  save_to_csv {| client := c |} df OUTPUT_FILE w2 = (Raise x, w3) ->
  batch_process w = (1%Z, logged [cli_error_record x] w3) /\
  w_stdout w3 = w_stdout w /\
  w_log w3 = w_log w2 ++ [save_error_record x].
Proof.
  intros Hc Hf Hlen Hs.
  assert (Hx : exc_is_Exception x = true /\ w_stdout w3 = w_stdout w2 /\
               w_log w3 = w_log w2 ++ [save_error_record x]).
  { rewrite save_to_csv_run in Hs.
    destruct (os_makedirs_exist_ok _ _) as [[[]|e] fs1] eqn:Hm.
    - destruct (frame_to_save df) as [d|e] eqn:Hd.
      + destruct (write_text _ _ fs1) as [[[]|e] fs2] eqn:Hw; [done|].
        injection Hs as -> <-. split; [|done].
        now apply write_text_Raise in Hw as [Hx _].
      + injection Hs as -> <-. split; [|done].
        now apply frame_to_save_error_is_Exception in Hd.
    - injection Hs as -> <-. split; [|done].
      now apply os_makedirs_error_is_Exception in Hm. }
  destruct Hx as (Hx & Hout & Hlog).
  destruct (fetch_data_labels _ _ _ _ _ _ Hf) as (_ & _ & Hw2).
  split; [|split; [|exact Hlog]].
  - unfold batch_process, run_cli.
    erewrite try_Raise.
    2: { erewrite bind_Ok; [|exact (init_Ok _ _ Hc)].
         erewrite bind_Ok; [|exact Hf].
         apply Nat.ltb_lt in Hlen. rewrite Hlen.
         erewrite bind_Raise; [reflexivity|exact Hs]. }
    rewrite Hx. now rewrite cli_handler.
  - rewrite Hout, Hw2. reflexivity.
Qed.
End BatchPaths.

(** ** The interactive front end *)

Section Interactive.
Context {V : Type} `{!Pandas V} `{!Databento V} `{!PyStrExn} `{!Streamlit V}.

Lemma app_handler (x : exn) (w : world) :
  (_ ← logger_error ("Error in Streamlit app: " +:+ str_exn x);
   mret (ErrorShown ("❌ Error: " +:+ str_exn x)) : M (@page V)) w =
  (Ok (ErrorShown ("❌ Error: " +:+ str_exn x)), logged [app_error_record x] w).
Proof. reflexivity. Qed.

(** The [try] block of [run_streamlit], path by path. *)
Lemma streamlit_body (start_date end_date : date) (w : world) :
  (fetcher ← NQDataFetcher_init;
   df ← fetch_data fetcher (combine_min_utc start_date) (combine_min_utc end_date);
   if Nat.ltb 0 (len df)
   then
     _ ← lift (display df);
     mret (Displayed df (download_button df start_date end_date))
   else mret (NoData "⚠️ No data available for the selected date range.")) w =
  match Historical API_KEY with
  | Raise x => (Raise x, w)
  | Ok c =>
      let steps := fetch_steps Bars {| client := c |} (combine_min_utc start_date)
                               (combine_min_utc end_date) in
      let w2 := logged (fetch_records Bars (combine_min_utc start_date)
                                      (combine_min_utc end_date) steps)
                       (logged [init_record] w) in
      match steps with
      | Raise x => (Raise x, w2)
      | Ok df =>
          if Nat.ltb 0 (len df)
          then match display df with
               | Ok _ => (Ok (Displayed df (download_button df start_date end_date)), w2)
               | Raise x => (Raise x, w2)
               end
          else (Ok (NoData "⚠️ No data available for the selected date range."), w2)
      end
  end.
Proof.
  destruct (Historical API_KEY) as [c|x] eqn:Hc.
  - erewrite bind_Ok; [|exact (init_Ok _ _ Hc)].
    pose proof (fetch_run Bars {| client := c |} (combine_min_utc start_date)
                          (combine_min_utc end_date) (logged [init_record] w)) as Hrun.
    simpl run_fetch in Hrun. cbv zeta.
    destruct (fetch_steps Bars _ _ _) as [df|x] eqn:Hsteps.
    + erewrite bind_Ok; [|exact Hrun].
      destruct (Nat.ltb 0 (len df)); [|reflexivity].
      destruct (display df) as [[]|x] eqn:Hd.
      * now rewrite (bind_lift_Ok _ _ _ tt).
      * now rewrite (bind_lift_Raise _ _ _ x).
    + erewrite bind_Raise; [reflexivity|exact Hrun].
  - erewrite bind_Raise; [reflexivity|].
    unfold NQDataFetcher_init. now rewrite (bind_lift_Raise _ _ _ x).
Qed.

(** X12.  In interactive mode a failure of the client's construction or of
    the fetch with an instance of [Exception] does not escape: the run ends
    normally with the error message shown, after one more error record. *)
Theorem streamlit_shows_failure (start_date end_date : date) (w : world) (x : exn) :
  exc_is_Exception x = true ->
  (Historical API_KEY = Raise x ->
   run_streamlit start_date end_date true w =
     (Ok (ErrorShown ("❌ Error: " +:+ str_exn x)), logged [app_error_record x] w)) /\
  (forall c w2,
     Historical API_KEY = Ok c ->
     fetch_data {| client := c |} (combine_min_utc start_date) (combine_min_utc end_date)
                (logged [init_record] w) = (Raise x, w2) ->
     run_streamlit start_date end_date true w =
       (Ok (ErrorShown ("❌ Error: " +:+ str_exn x)), logged [app_error_record x] w2)).
Proof.
  intros Hx. split.
  - intros Hc. unfold run_streamlit. erewrite try_Raise.
    2: { rewrite streamlit_body. now rewrite Hc. }
    rewrite Hx. apply app_handler.
  - intros c w2 Hc Hf. unfold run_streamlit. erewrite try_Raise.
    2: { erewrite bind_Ok; [|exact (init_Ok _ _ Hc)].
         erewrite bind_Raise; [reflexivity|exact Hf]. }
    rewrite Hx. apply app_handler.
Qed.

(** X13.  Whatever the dates, the button, the vendor and the display
    steps, a run of the page script leaves the file system and what was
    printed as they were, and raises nothing that is an instance of
    [Exception].  When it ends with a table on the page, the table has at
    least one row, its chart, summary and raw-data steps have all returned,
    each of its columns carries one of the five OHLCV labels and each of
    these labels a column, and the download offered is the one made from
    that table and the chosen dates.  When the fetch returns rows and a
    display step raises an instance of [Exception], the run ends with the
    error message shown, after one more error record. *)
Theorem streamlit_never_writes
        (start_date end_date : date) (fetch_button : bool) (w : world) :
  w_fs (run_streamlit start_date end_date fetch_button w).2 = w_fs w /\
  w_stdout (run_streamlit start_date end_date fetch_button w).2 = w_stdout w /\
  (forall x, (run_streamlit start_date end_date fetch_button w).1 = Raise x ->
             exc_is_Exception x = false) /\
  (forall df dl,
      (run_streamlit start_date end_date fetch_button w).1 = Ok (Displayed df dl) ->
      0 < len df /\
      display df = Ok tt /\
      dl = download_button df start_date end_date /\
      (forall l, l ∈ labels df <-> l ∈ keep_cols)) /\
  (forall c df w2 x,
      Historical API_KEY = Ok c ->
      fetch_data {| client := c |} (combine_min_utc start_date) (combine_min_utc end_date)
                 (logged [init_record] w) = (Ok df, w2) ->
      0 < len df ->
      display df = Raise x ->
      exc_is_Exception x = true ->
      run_streamlit start_date end_date true w =
        (Ok (ErrorShown ("❌ Error: " +:+ str_exn x)), logged [app_error_record x] w2)).
Proof.
  assert (Hfail : forall c df w2 x,
      Historical API_KEY = Ok c ->
      fetch_data {| client := c |} (combine_min_utc start_date) (combine_min_utc end_date)
                 (logged [init_record] w) = (Ok df, w2) ->
      0 < len df ->
      display df = Raise x ->
      exc_is_Exception x = true ->
      run_streamlit start_date end_date true w =
        (Ok (ErrorShown ("❌ Error: " +:+ str_exn x)), logged [app_error_record x] w2)).
  { intros c df w2 x Hc Hf Hlen Hd Hx. unfold run_streamlit. erewrite try_Raise.
    2: { erewrite bind_Ok; [|exact (init_Ok _ _ Hc)].
         erewrite bind_Ok; [|exact Hf].
         apply Nat.ltb_lt in Hlen. rewrite Hlen.
         now rewrite (bind_lift_Raise _ _ _ x). }
    rewrite Hx. apply app_handler. }
  cut (w_fs (run_streamlit start_date end_date fetch_button w).2 = w_fs w /\
       w_stdout (run_streamlit start_date end_date fetch_button w).2 = w_stdout w /\
       (forall x, (run_streamlit start_date end_date fetch_button w).1 = Raise x ->
                  exc_is_Exception x = false) /\
       (forall df dl,
           (run_streamlit start_date end_date fetch_button w).1 = Ok (Displayed df dl) ->
           0 < len df /\
           display df = Ok tt /\
           dl = download_button df start_date end_date /\
           (forall l, l ∈ labels df <-> l ∈ keep_cols))).
  { intros (H1 & H2 & H3 & H4). auto. }
  clear Hfail.
  unfold run_streamlit. destruct fetch_button; [|done].
  unfold try_except_Exception. rewrite streamlit_body.
  destruct (Historical API_KEY) as [c|x] eqn:Hc.
  - cbv zeta.
    pose proof (fetch_run Bars {| client := c |} (combine_min_utc start_date)
                          (combine_min_utc end_date) (logged [init_record] w)) as Hrun.
    simpl run_fetch in Hrun.
    destruct (fetch_steps Bars _ _ _) as [df|x] eqn:Hsteps.
    + destruct (Nat.ltb 0 (len df)) eqn:Hlen; [|done].
      destruct (display df) as [[]|x] eqn:Hd.
      * split; [done|]. split; [done|]. split; [done|].
        intros df' dl. simpl. intros [= <- <-]. apply Nat.ltb_lt in Hlen.
        destruct (fetch_data_labels _ _ _ _ _ _ Hrun) as (Hsound & Hcomplete & _).
        split; [done|]. split; [done|]. split; [done|]. intros l. split; auto.
      * destruct (exc_is_Exception x) eqn:Hx.
        -- rewrite app_handler. simpl. done.
        -- simpl. split; [done|]. split; [done|]. split; [|done].
           now intros x' [= <-].
    + destruct (exc_is_Exception x) eqn:Hx.
      * rewrite app_handler. simpl. done.
      * simpl. split; [done|]. split; [done|]. split; [|done].
        now intros x' [= <-].
  - destruct (exc_is_Exception x) eqn:Hx.
    + rewrite app_handler. simpl. done.
    + simpl. split; [done|]. split; [done|]. split; [|done].
      now intros x' [= <-].
Qed.

(** X14.  For a frame indexed by [ts_event], the download of the page and
    the file of a successful export hold the same records after the header,
    and their headers differ in the first name only: [ts_event] in the
    download, [timestamp] in the file. *)
Theorem download_and_export_share_records
        (self : NQDataFetcher) (df : DataFrame V) (filepath : string) (w w' : world)
        (start_date end_date : date) :
  index_name df = Some "ts_event" ->
  save_to_csv self df filepath w = (Ok tt, w') ->
  exists records,
    read_text filepath (w_fs w') = Ok (csv_row ("timestamp" :: labels df) +:+ records) /\
    dl_data (download_button df start_date end_date) =
      csv_row ("ts_event" :: labels df) +:+ records.
Proof.
  intros Hn Hs.
  destruct (save_to_csv_Ok_inv _ _ _ _ _ Hs) as (fs1 & d & fs2 & Hm & Hd & Hw & ->).
  destruct (frame_to_save_ts_event _ _ Hn Hd) as [Hcols Hlen].
  exists (csv_text (data_rows_with_index df)). split.
  - simpl. rewrite (read_after_write _ _ _ _ Hw). f_equal.
    unfold to_csv_no_index, data_rows, data_rows_with_index, labels.
    rewrite Hlen, Hcols. reflexivity.
  - simpl. unfold to_csv. now rewrite Hn.
Qed.
End Interactive.

(** ** The logger *)

(** X15.  [setup_logger] is idempotent: any number of calls in a row after
    the first leaves the registry, and so the logger's handlers and level,
    as the first call left them. *)
Theorem setup_logger_idempotent
        (n : nat) (name : string) (reg : gmap string Logging.Logger) :
  Logging.setup_logger_times (S n) name reg = Logging.setup_logger name reg.
Proof.
  assert (Hidem : forall r, Logging.setup_logger name (Logging.setup_logger name r) =
                            Logging.setup_logger name r).
  { intros r. unfold Logging.setup_logger, Logging.getLogger.
    destruct (r !! name) as [[lv [|h hs]]|] eqn:Hr; simpl.
    - rewrite lookup_insert_eq. reflexivity.
    - rewrite Hr. reflexivity.
    - rewrite lookup_insert_eq. reflexivity. }
  change (Logging.setup_logger_times (S n) name reg)
    with (Logging.setup_logger_times n name (Logging.setup_logger name reg)).
  revert reg. induction n as [|n IH]; intros reg; [reflexivity|].
  simpl. rewrite Hidem. apply IH.
Qed.

(** X16.  [setup_logger] configures a logger once and never reconfigures
    it: a logger that has a handler is left as it is, level included; a new
    logger, or one without handlers, gets level INFO and the one console
    handler; loggers under other names are not touched. *)
Theorem setup_logger_configures_once
        (name : string) (reg : gmap string Logging.Logger) :
  (forall l, reg !! name = Some l -> Logging.lg_handlers l <> [] ->
             Logging.setup_logger name reg = reg) /\
  ((forall l, reg !! name = Some l -> Logging.lg_handlers l = []) ->
   Logging.setup_logger name reg !! name =
     Some {| Logging.lg_level := Logging.LEVEL_INFO;
             Logging.lg_handlers := [Logging.console_handler] |}) /\
  (forall other, other <> name ->
                 Logging.setup_logger name reg !! other = reg !! other).
Proof.
  unfold Logging.setup_logger, Logging.getLogger. split; [|split].
  - intros l Hl Hh. rewrite Hl. simpl. now destruct (Logging.lg_handlers l).
  - intros Hnone. destruct (reg !! name) as [l|] eqn:Hl; simpl.
    + rewrite (Hnone l eq_refl). now rewrite lookup_insert_eq.
    + now rewrite lookup_insert_eq.
  - intros other Hne.
    destruct (reg !! name) as [[lv [|h hs]]|] eqn:Hl; simpl;
      rewrite ?lookup_insert_ne by done; done.
Qed.

(** ** When a fetch and an export succeed *)

Section Success.
Context {V : Type} `{!Pandas V} `{!Databento V} `{!PyStrExn}.

(** With distinct labels the promotion of [ts_event] gives the index of
    the single [ts_event] column, or leaves the vendor's index. *)
Lemma promote_ts_event_NoDup (t : DataFrame V) :
  NoDup (labels t) ->
  promote_ts_event t =
  Ok {| index_name := (event_index t).1;
        index := (event_index t).2;
        columns := filter (fun c => c.1 <> "ts_event") (columns t) |}.
Proof. intros _. apply promote_ts_event_total. Qed.

Lemma getitem_list_complete keys (df : DataFrame V) :
  (forall k, k ∈ keys -> k ∈ labels df) ->
  getitem_list keys df =
  Ok {| index_name := index_name df; index := index df;
        columns := select keys (columns df) |}.
Proof.
  intros Hall. unfold getitem_list.
  destruct (filter (fun k => negb (in_columns k df)) keys) as [|m ms] eqn:Hf; [done|].
  assert (Hm : m ∈ filter (fun k => negb (in_columns k df)) keys)
    by (rewrite Hf; apply list_elem_of_here).
  apply list_elem_of_filter in Hm as [Hneg Hm].
  apply Hall, in_columns_labels in Hm. now rewrite Hm in Hneg.
Qed.

Lemma kept_label_survives (t : DataFrame V) k :
  k ∈ keep_cols -> k ∈ labels t ->
  k ∈ (filter (fun c => c.1 <> "ts_event") (columns t)).*1.
Proof.
  intros Hk Hin. apply list_elem_of_fmap in Hin as (c & -> & Hc).
  apply list_elem_of_fmap. exists c. split; [done|].
  apply list_elem_of_filter. split; [|done].
  intros Heq. rewrite Heq in Hk. now apply ts_event_not_kept in Hk.
Qed.

(** X17.  A time-series fetch succeeds whenever the vendor returns a table
    with distinct labels (for [fetch_data], among them the five OHLCV
    labels) and [pd.to_datetime] parses its event index to as many values.
    The result is then indexed by the parsed values under the name of the
    event index, holds the kept columns, and two info records are logged. *)
Theorem fetch_succeeds_on_well_shaped_table
        (op : fetch_op) (self : NQDataFetcher) (start_time end_time : datetime)
        (w : world) (t : DataFrame V) (idx : list V) :
  op <> Reference ->
  vendor_table self (op_schema op) start_time end_time = Ok t ->
  NoDup (labels t) ->
  (op = Bars -> forall k, k ∈ keep_cols -> k ∈ labels t) ->
  pd_to_datetime (event_index t).2 = Ok idx ->
  length idx = length (event_index t).2 ->
  let df := {| index_name := (event_index t).1;
               index := idx;
               columns := kept_columns op t |} in
  run_fetch op self start_time end_time w =
    (Ok df, logged [(INFO, start_message op start_time end_time);
                    (INFO, success_message op df)] w).
Proof.
  intros Hop Ht Hnd Hkeep Hparse Hlen df.
  assert (Hparse_index : forall cols,
             parse_index {| index_name := (event_index t).1;
                            index := (event_index t).2;
                            columns := cols |} =
             Ok {| index_name := (event_index t).1; index := idx; columns := cols |}).
  { intros cols. unfold parse_index, assign_index, len. simpl.
    rewrite Hparse. simpl. now rewrite Hlen, Nat.eqb_refl. }
  assert (Hsteps : fetch_steps op self start_time end_time = Ok df).
  { destruct op; [|done| |]; unfold fetch_steps; simpl op_schema in *;
      rewrite Ht; cbn [and_then]; rewrite (promote_ts_event_NoDup _ Hnd);
      cbn [and_then].
    - rewrite getitem_list_complete.
      2: { intros k Hk. unfold labels. cbn [columns].
           apply kept_label_survives; [done|]. now apply Hkeep. }
      cbn [and_then columns index_name index].
      rewrite select_drop_other by apply ts_event_not_kept.
      apply Hparse_index.
    - apply Hparse_index.
    - apply Hparse_index. }
  rewrite fetch_run. unfold fetch_records. now rewrite Hsteps.
Qed.

(** X2.  When [pd.to_datetime] cannot parse the event index of a vendor
    table that is otherwise well shaped, a time-series fetch returns
    nothing: it raises the parser's exception, unchanged, after the error
    record (when it is an instance of [Exception]), although the vendor
    call succeeded. *)
Theorem fetch_raises_parse_failure
        (op : fetch_op) (self : NQDataFetcher) (start_time end_time : datetime)
        (w : world) (t : DataFrame V) (x : exn) :
  op <> Reference ->
  vendor_table self (op_schema op) start_time end_time = Ok t ->
  NoDup (labels t) ->
  (op = Bars -> forall k, k ∈ keep_cols -> k ∈ labels t) ->
  pd_to_datetime (event_index t).2 = Raise x ->
  run_fetch op self start_time end_time w =
    (Raise x, logged (failure_records op start_time end_time x) w) /\
  ~ surfaces_wrapped "RetrievalError" (run_fetch op self start_time end_time w) x.
Proof.
  intros Hop Ht Hnd Hkeep Hparse.
  assert (Hparse_index : forall cols,
             parse_index {| index_name := (event_index t).1;
                            index := (event_index t).2;
                            columns := cols |} = Raise x).
  { intros cols. unfold parse_index. simpl. now rewrite Hparse. }
  assert (Hsteps : fetch_steps op self start_time end_time = Raise x).
  { destruct op; [|done| |]; unfold fetch_steps; simpl op_schema in *;
      rewrite Ht; cbn [and_then]; rewrite (promote_ts_event_NoDup _ Hnd);
      cbn [and_then].
    - rewrite getitem_list_complete.
      2: { intros k Hk. unfold labels. cbn [columns].
           apply kept_label_survives; [done|]. now apply Hkeep. }
      cbn [and_then columns index_name index]. apply Hparse_index.
    - apply Hparse_index.
    - apply Hparse_index. }
  assert (Hrun : run_fetch op self start_time end_time w =
                 (Raise x, logged (failure_records op start_time end_time x) w)).
  { rewrite fetch_run. unfold fetch_records, failure_records. now rewrite Hsteps. }
  split; [exact Hrun|].
  apply reraised_not_wrapped. now rewrite Hrun.
Qed.

End Success.

(** ** More scenarios, evaluated *)

Lemma fetch_keeps_rows_witness :
  rectangular ohlcv /\ len ohlcv = 2.
Proof.
  apply (@fetch_keeps_rows string pandas_text (vendor (Ok bars)) str_exn_text
           Bars (fetcher (Ok bars)) DEFAULT_START_TIME DEFAULT_END_TIME
           w0 (fetch_with Bars (Ok bars) w0).2 bars ohlcv).
  - discriminate.
  - reflexivity.
  - unfold rectangular. repeat constructor.
  - vm_compute. reflexivity.
Defined.

Lemma fetch_statistics_by_date_witness :
  (@fetch_statistics string Samples.vendor_defs str_exn_text Samples.fetcher_defs
                     DEFAULT_START_TIME DEFAULT_END_TIME w0).1 =
  (@fetch_statistics string Samples.vendor_defs str_exn_text Samples.fetcher_defs
                     Samples.opening DEFAULT_END_TIME w0).1.
Proof.
  apply (@fetch_statistics_by_date string pandas_text Samples.vendor_defs str_exn_text
           Samples.fetcher_defs DEFAULT_START_TIME DEFAULT_END_TIME
           Samples.opening DEFAULT_END_TIME w0); reflexivity.
Defined.

Lemma save_to_csv_keeps_other_index_names_witness :
  exists text,
    read_text "data/definitions.csv"
              (w_fs (export_with Samples.definitions "data/definitions.csv" w0).2) = Ok text /\
    csv_header text = ["index"; "raw_symbol"; "expiration"; "ts_event"].
Proof.
  destruct (@save_to_csv_keeps_other_index_names string pandas_text (vendor (Ok bars))
              str_exn_text (fetcher (Ok bars)) Samples.definitions "data/definitions.csv"
              w0 (export_with Samples.definitions "data/definitions.csv" w0).2)
    as (text & Hread & _ & Hheader).
  - discriminate.
  - vm_compute. reflexivity.
  - exists text. split; [exact Hread|]. apply Hheader. reflexivity.
Defined.

Lemma save_to_csv_rejects_clashing_index_witness :
  export_with Samples.clashing OUTPUT_FILE w0 =
    (Raise (ValueError ["cannot insert symbol, already exists"]),
     logged [(ERROR, "Error saving data to CSV: cannot insert symbol, already exists")]
            (with_files (os_makedirs_exist_ok "data" (w_fs w0)).2 w0)) /\
  isdir "data" (os_makedirs_exist_ok "data" (w_fs w0)).2 = true.
Proof.
  destruct (@save_to_csv_rejects_clashing_index string pandas_text (vendor (Ok bars))
              str_exn_text (fetcher (Ok bars)) Samples.clashing OUTPUT_FILE w0
              (os_makedirs_exist_ok "data" (w_fs w0)).2)
    as (Hrun & Hdir & _).
  - reflexivity.
  - vm_compute. reflexivity.
  - split; [exact Hrun|exact Hdir].
Defined.

Lemma fetched_frame_export_fails_only_on_files_witness :
  export_failure ohlcv OUTPUT_FILE (w_fs w_blocked) (FileExistsError "data")
                 (w_fs w_blocked).
Proof.
  apply (@fetched_frame_export_fails_only_on_files string pandas_text (vendor (Ok bars))
           str_exn_text (fetcher (Ok bars)) DEFAULT_START_TIME DEFAULT_END_TIME
           w0 (fetch_with Bars (Ok bars) w0).2 ohlcv OUTPUT_FILE w_blocked
           (export_with ohlcv OUTPUT_FILE w_blocked).2 (FileExistsError "data")).
  - vm_compute. reflexivity.
  - intros n [= <-]. apply ts_event_not_kept.
  - vm_compute. reflexivity.
Defined.

Lemma batch_exports_rows_witness :
  exists w3 text,
    batch_with (Ok bars) Samples.w_busy = (0%Z, w3) /\
    w_stdout w3 = ["Data successfully saved to data/nq_futures_data.csv"] /\
    read_text OUTPUT_FILE (w_fs w3) = Ok text /\
    csv_header text = ["timestamp"; "open"; "high"; "low"; "close"; "volume"].
Proof.
  destruct (@batch_exports_rows string pandas_text (vendor (Ok bars)) str_exn_text
              Samples.w_busy
              (fetch_with Bars (Ok bars) (logged [init_record] Samples.w_busy)).2
              (tt : @Client string (vendor (Ok bars))) ohlcv)
    as (w3 & text & Hrun & Hout & _ & _ & Hread & Hheader).
  - reflexivity.
  - vm_compute. reflexivity.
  - unfold len, ohlcv; simpl; lia.
  - reflexivity.
  - split; [intros text; vm_compute; discriminate|vm_compute; discriminate].
  - exists w3, text. done.
Defined.

Lemma batch_fetch_failure_exits_one_witness :
  (batch_with (Raise boom) w0).1 = 1%Z /\
  w_stdout (batch_with (Raise boom) w0).2 = [] /\
  w_fs (batch_with (Raise boom) w0).2 = w_fs w0.
Proof.
  destruct (@batch_fetch_failure_exits_one string pandas_text (vendor (Raise boom))
              str_exn_text w0 boom) as [_ Hfetch].
  - reflexivity.
  - destruct (Hfetch (tt : @Client string (vendor (Raise boom)))
                     (fetch_with Bars (Raise boom) (logged [init_record] w0)).2)
      as (Hrun & Hout & Hfs).
    + reflexivity.
    + vm_compute. reflexivity.
    + unfold batch_with. rewrite Hrun. simpl. done.
Defined.

Lemma batch_export_failure_exits_one_witness :
  (batch_with (Ok bars) w_blocked).1 = 1%Z /\
  w_stdout (batch_with (Ok bars) w_blocked).2 = [].
Proof.
  destruct (@batch_export_failure_exits_one string pandas_text (vendor (Ok bars))
              str_exn_text w_blocked
              (fetch_with Bars (Ok bars) (logged [init_record] w_blocked)).2
              (export_with ohlcv OUTPUT_FILE
                 (fetch_with Bars (Ok bars) (logged [init_record] w_blocked)).2).2
              (tt : @Client string (vendor (Ok bars))) ohlcv (FileExistsError "data"))
    as (Hrun & Hout & _).
  - reflexivity.
  - vm_compute. reflexivity.
  - unfold len, ohlcv; simpl; lia.
  - vm_compute. reflexivity.
  - unfold batch_with. rewrite Hrun. simpl. done.
Defined.

Lemma streamlit_shows_failure_witness :
  (page_with (Raise boom) w0).1 = Ok (ErrorShown "❌ Error: 503 Service Unavailable").
Proof.
  destruct (@streamlit_shows_failure string pandas_text (vendor (Raise boom))
              str_exn_text streamlit_shows FETCH_START FETCH_END w0 boom) as [_ Hfetch].
  - reflexivity.
  - unfold page_with.
    rewrite (Hfetch (tt : @Client string (vendor (Raise boom)))
                    (fetch_with Bars (Raise boom) (logged [init_record] w0)).2).
    + reflexivity.
    + reflexivity.
    + vm_compute. reflexivity.
Defined.

Lemma streamlit_never_writes_witness :
  (@run_streamlit string pandas_text (vendor (Ok bars)) str_exn_text Samples.streamlit_fails
                  FETCH_START FETCH_END true w0).1 =
    Ok (ErrorShown
          "❌ Error: Invalid value received for the 'open' property of candlestick") /\
  w_fs (page_with (Ok bars) w0).2 = w_fs w0 /\
  w_stdout (page_with (Ok bars) w0).2 = [] /\
  @display string streamlit_shows ohlcv = Ok tt.
Proof.
  destruct (@streamlit_never_writes string pandas_text (vendor (Ok bars)) str_exn_text
              Samples.streamlit_fails FETCH_START FETCH_END true w0)
    as (_ & _ & _ & _ & Hfail).
  destruct (@streamlit_never_writes string pandas_text (vendor (Ok bars)) str_exn_text
              streamlit_shows FETCH_START FETCH_END true w0)
    as (Hfs & Hout & _ & Hshown & _).
  split; [|split; [exact Hfs|split; [exact Hout|]]].
  - rewrite (Hfail (tt : @Client string (vendor (Ok bars))) ohlcv
                   (fetch_with Bars (Ok bars) (logged [init_record] w0)).2
                   Samples.no_chart).
    + reflexivity.
    + reflexivity.
    + vm_compute. reflexivity.
    + unfold len, ohlcv; simpl; lia.
    + reflexivity.
    + reflexivity.
  - destruct (Hshown ohlcv (@download_button string pandas_text ohlcv FETCH_START FETCH_END))
      as (_ & Hdisplay & _).
    + vm_compute. reflexivity.
    + exact Hdisplay.
Defined.

Lemma download_and_export_share_records_witness :
  exists records,
    read_text OUTPUT_FILE (w_fs (export_with ohlcv OUTPUT_FILE w0).2) =
      Ok (csv_row ["timestamp"; "open"; "high"; "low"; "close"; "volume"] +:+ records) /\
    dl_data (@download_button string pandas_text ohlcv FETCH_START FETCH_END) =
      csv_row ["ts_event"; "open"; "high"; "low"; "close"; "volume"] +:+ records.
Proof.
  apply (@download_and_export_share_records string pandas_text (vendor (Ok bars))
           str_exn_text (fetcher (Ok bars)) ohlcv OUTPUT_FILE w0
           (export_with ohlcv OUTPUT_FILE w0).2 FETCH_START FETCH_END).
  - reflexivity.
  - vm_compute. reflexivity.
Defined.

Lemma fetch_succeeds_on_well_shaped_table_witness :
  fetch_with Bars (Ok bars) w0 =
    (Ok ohlcv,
     logged [(INFO, "Fetching NQM5 OHLCV data from 2025-03-21 00:00:00+00:00 to 2025-03-22 00:00:00+00:00");
             (INFO, "Successfully fetched 2 OHLCV records")] w0).
Proof.
  apply (@fetch_succeeds_on_well_shaped_table string pandas_text (vendor (Ok bars))
           str_exn_text Bars (fetcher (Ok bars)) DEFAULT_START_TIME DEFAULT_END_TIME
           w0 bars (index ohlcv)).
  - discriminate.
  - reflexivity.
  - apply (bool_decide_unpack _). vm_compute. exact I.
  - intros _ k Hk. unfold keep_cols in Hk.
    repeat (apply elem_of_cons in Hk as [->|Hk];
            [apply (bool_decide_unpack _); vm_compute; exact I|]).
    now apply elem_of_nil in Hk.
  - reflexivity.
  - reflexivity.
Defined.


Lemma fetch_raises_parse_failure_witness :
  @run_fetch string Samples.pandas_strict (vendor (Ok bars)) str_exn_text Bars
             (fetcher (Ok bars)) DEFAULT_START_TIME DEFAULT_END_TIME w0 =
    (Raise Samples.unparsable,
     logged [(INFO, "Fetching NQM5 OHLCV data from 2025-03-21 00:00:00+00:00 to 2025-03-22 00:00:00+00:00");
             (ERROR, "Error fetching OHLCV data: Unknown datetime string format")] w0).
Proof.
  apply (@fetch_raises_parse_failure string Samples.pandas_strict (vendor (Ok bars))
           str_exn_text Bars (fetcher (Ok bars)) DEFAULT_START_TIME DEFAULT_END_TIME
           w0 bars Samples.unparsable).
  - discriminate.
  - reflexivity.
  - apply (bool_decide_unpack _). vm_compute. exact I.
  - intros _ k Hk. unfold keep_cols in Hk.
    repeat (apply elem_of_cons in Hk as [->|Hk];
            [apply (bool_decide_unpack _); vm_compute; exact I|]).
    now apply elem_of_nil in Hk.
  - reflexivity.
Defined.
